(** * GeneModelFinder: parsing of mash output and selection of best hits

    A shallow embedding of [GeneModelFinder.py].  Python [str] values are
    Rocq strings (code points below 256), Python [int] is [Z], lists are
    lists.  Exceptions are values of [exn]; a call that may raise returns an
    [outcome].  Calls to the outside world (directory listing, subprocesses,
    logging, printing) are recorded, in order, in a trace. *)

From Stdlib Require Import List String Ascii ZArith Lia Bool Sorted Permutation.
From Stdlib Require Import DecimalString.
Import ListNotations.
Open Scope string_scope.

(** ** Python [str] primitives *)

Module PyStr.

Definition tab : ascii := "009"%char.
Definition newline : ascii := "010"%char.
Definition slash : ascii := "/"%char.

Definition TAB : string := String tab "".
Definition NL : string := String newline "".

(** The characters [c] below code point 256 with [c.isspace()]:
    HT LF VT FF CR, FS GS RS US, space, NEL and NBSP. *)
Definition whitespace : list ascii :=
  [ "009"; "010"; "011"; "012"; "013"; "028"; "029"; "030"; "031";
    " "; "133"; "160" ]%char.

Definition is_space (c : ascii) : bool := existsb (Ascii.eqb c) whitespace.

(** Truth value of a [str]: only the empty string is false. *)
Definition truthy (s : string) : bool :=
  match s with "" => false | _ => true end.

(** [s.rstrip()]: drop the longest suffix of whitespace characters. *)
Fixpoint rstrip (s : string) : string :=
  match s with
  | "" => ""
  | String c s' =>
      match rstrip s' with
      | "" => if is_space c then "" else String c ""
      | r => String c r
      end
  end.

(** [s.split(sep)] for a one-character separator, the only kind the
    program uses.  The result is never empty: [''.split(sep) == ['']]. *)
Fixpoint split (sep : ascii) (s : string) : list string :=
  match s with
  | "" => [""]
  | String c s' =>
      if Ascii.eqb c sep then "" :: split sep s'
      else match split sep s' with
           | [] => [String c ""]
           | w :: ws => String c w :: ws
           end
  end.

(** [sep.join(parts)]. *)
Fixpoint join (sep : string) (parts : list string) : string :=
  match parts with
  | [] => ""
  | [p] => p
  | p :: ps => p ++ sep ++ join sep ps
  end.

(** [c in s] for a character. *)
Fixpoint contains (c : ascii) (s : string) : bool :=
  match s with
  | "" => false
  | String d s' => Ascii.eqb d c || contains c s'
  end.

(** [str(n)] and ["%d" % n] for an integer. *)
Definition of_Z (n : Z) : string := NilZero.string_of_int (Z.to_int n).
Definition of_nat (n : nat) : string := of_Z (Z.of_nat n).

End PyStr.

Import PyStr.

(** ** Exceptions and results *)

Inductive exn : Type :=
| ValueError (message : string)
| RuntimeError (message : string)
| FileNotFoundError (message : string)
| OtherError (message : string).

Inductive outcome (A : Type) : Type :=
| Ok (a : A)
| Raise (e : exn).
Arguments Ok {A} a.
Arguments Raise {A} e.

(** ** Records

    The dataclasses annotate numeric fields as [int] and [float], but the
    parsers store the pieces of [str.split] unconverted and [write_hits]
    joins them as [str]; at run time every field is a [str]. *)

Record Sketch : Type := mkSketch {
  hashes : string;
  length : string;
  sketch_id : string;
  comment : string
}.

Record MashHit : Type := mkMashHit {
  ref_id : string;
  query_id : string;
  mash_dist : string;
  p_value : string;
  matching_hashes : string;
  total_hashes : string
}.

(** ** parse_mash_info *)

Definition mash_info_format_error : exn :=
  ValueError "Mash info output not formatted as expected (tabular format)".

(** The body of the [for] loop under [try]: [None] is the [ValueError] of
    a tuple unpacking with the wrong number of values, which leaves the
    loop and drops [sketches]. *)
Fixpoint parse_mash_info_rows (rows : list string) (sketches : list Sketch)
  : option (list Sketch) :=
  match rows with
  | [] => Some sketches
  | row :: rest =>
      match split tab row with
      | [hashes; length; sketch_id; comment] =>
          let sketch := mkSketch hashes length sketch_id comment in
          parse_mash_info_rows rest (sketches ++ [sketch])
      | _ => None
      end
  end.

Definition parse_mash_info (result : string) : outcome (list Sketch) :=
  if negb (truthy result) then Ok []
  else
    match parse_mash_info_rows (tl (split newline (rstrip result))) [] with
    | Some sketches => Ok sketches
    | None => Raise mash_info_format_error
    end.

(** ** parse_mash_dist *)

Definition mash_dist_format_error : exn :=
  ValueError "Mash dist output not formatted as expected (standard output format)".

Fixpoint parse_mash_dist_rows (rows : list string) (hits : list MashHit)
  : option (list MashHit) :=
  match rows with
  | [] => Some hits
  | row :: rest =>
      match split tab row with
      | [ref_id; query_id; mash_dist; p_value; hash_ratio] =>
          match split slash hash_ratio with
          | [matching_hashes; total_hashes] =>
              let hit := mkMashHit ref_id query_id mash_dist p_value
                                   matching_hashes total_hashes in
              parse_mash_dist_rows rest (hits ++ [hit])
          | _ => None
          end
      | _ => None
      end
  end.

Definition parse_mash_dist (result : string) : outcome (list MashHit) :=
  if negb (truthy result) then Ok []
  else
    match parse_mash_dist_rows (split newline (rstrip result)) [] with
    | Some hits => Ok hits
    | None => Raise mash_dist_format_error
    end.

(** ** get_best_hits *)

(** [sorted(xs, key=key)]: Python's sort is stable and compares keys with
    [<] only.  Whenever [<] is a strict weak order, as it is on [str], the
    stable sorted arrangement of a list is unique (see
    [stable_sorted_unique] below), so the order of insertions is immaterial
    and a stable insertion sort computes it. *)
Section Sorted.
Context {A K : Type}.
Variable lt : K -> K -> bool.
Variable key : A -> K.

Fixpoint insert (x : A) (l : list A) : list A :=
  match l with
  | [] => [x]
  | y :: l' => if lt (key y) (key x) then y :: insert x l' else x :: y :: l'
  end.

Definition sorted (l : list A) : list A := fold_right insert [] l.

(** [ascending x y]: [y] may follow [x] in a list sorted by key. *)
Definition ascending (x y : A) : Prop := lt (key y) (key x) = false.

(** [same_key k x]: the key of [x] compares equal to [k]. *)
Definition same_key (k : K) (x : A) : bool :=
  negb (lt k (key x)) && negb (lt (key x) k).
End Sorted.

(** [xs[:n]] for a Python integer [n]: a negative [n] counts from the end. *)
Definition slice_to {A : Type} (xs : list A) (n : Z) : list A :=
  if (0 <=? n)%Z then firstn (Z.to_nat n) xs
  else firstn (List.length xs - Z.to_nat (- n)) xs.

(** What [get_best_hits] hands back: a list, or [None] when control falls
    off the end of the function. *)
Inductive pyvalue : Type :=
| PyList (hits : list MashHit)
| PyNone.

(** The [for] loop of "standard" mode over [sorted_hits[1:]]; returning
    [best_hits] early is the [break]. *)
Fixpoint standard_loop (rest : list MashHit) (best_hits : list MashHit)
  : list MashHit :=
  match rest with
  | [] => best_hits
  | hit :: rest' =>
      if negb (String.eqb (mash_dist hit) (mash_dist (last best_hits hit)))
      then best_hits
      else standard_loop rest' (best_hits ++ [hit])
  end.

Definition get_best_hits (hits : list MashHit) (mode : string) (n : Z)
  : pyvalue :=
  match hits with
  | [] => PyList []
  | _ =>
      let sorted_hits := sorted String.ltb mash_dist hits in
      if String.eqb mode "standard" then
        match sorted_hits with
        | first :: rest => PyList (standard_loop rest [first])
        | [] => PyList []
        end
      else if String.eqb mode "best_n" then PyList (slice_to sorted_hits n)
      else PyNone
  end.

(** ** The outside world *)

Inductive event : Type :=
| Listdir (path : string)
| Run (command : list string)
| LogInfo (message : string)
| Print (line : string).

Record CompletedProcess : Type := mkCompletedProcess {
  returncode : Z;
  stdout : string;
  stderr : string
}.

(** A computation reads the trace so far and extends it. *)
Definition IO (A : Type) : Type := list event -> outcome A * list event.

Definition ret {A : Type} (a : A) : IO A := fun tr => (Ok a, tr).

Definition raise {A : Type} (e : exn) : IO A := fun tr => (Raise e, tr).

Definition bind {A B : Type} (m : IO A) (f : A -> IO B) : IO B :=
  fun tr =>
    match m tr with
    | (Ok a, tr') => f a tr'
    | (Raise e, tr') => (Raise e, tr')
    end.

Definition lift {A : Type} (r : outcome A) : IO A := fun tr => (r, tr).

Declare Scope io_scope.
Delimit Scope io_scope with io.
Notation "x <- m ;; k" := (bind m (fun x => k))
  (at level 61, m at next level, right associativity) : io_scope.
Notation "m ;;; k" := (bind m (fun _ => k))
  (at level 61, right associativity) : io_scope.
Open Scope io_scope.

Definition emit (ev : event) : IO unit := fun tr => (Ok tt, (tr ++ [ev])%list).

Definition logging_info (message : string) : IO unit := emit (LogInfo message).

Definition print (line : string) : IO unit := emit (Print line).

Fixpoint for_each {A : Type} (body : A -> IO unit) (xs : list A) : IO unit :=
  match xs with
  | [] => ret tt
  | x :: xs' => body x ;;; for_each body xs'
  end.

Section Pipeline.

(** What the file system and the [mash] binary answer, given what has
    happened so far.  A [Raise] from [run_result] is the failure to start
    the process at all; a non-zero [returncode] is what [check=True]
    turns into [CalledProcessError]. *)
Variable listdir_result : list event -> string -> outcome (list string).
Variable run_result : list event -> list string -> outcome CompletedProcess.

(** [float] enters the program only through [str(max_dist)]. *)
Variable float : Type.
Variable str_of_float : float -> string.

Definition os_listdir (path : string) : IO (list string) :=
  fun tr => (listdir_result tr path, (tr ++ [Listdir path])%list).

Definition subprocess_run (command : list string) : IO CompletedProcess :=
  fun tr => (run_result tr command, (tr ++ [Run command])%list).

Definition run_mash_info (sketches_path : string) : IO (list Sketch) :=
  let command := ["mash"; "info"; "-t"; sketches_path] in
  result <- subprocess_run command ;;
  if negb (returncode result =? 0)%Z then
    raise (RuntimeError (join NL
      [ "Mash info returned non-zero exit status "
          ++ of_Z (returncode result) ++ ".";
        "Captured stderr: " ++ stderr result ]))
  else lift (parse_mash_info (stdout result)).

Definition check_models (models_path sketches_path : string) : IO unit :=
  models <- os_listdir models_path ;;
  sketches <- run_mash_info sketches_path ;;
  logging_info ("Found " ++ of_nat (List.length sketches)
                 ++ " reference sketches.") ;;;
  let missing_ids :=
    map sketch_id
        (filter (fun sketch =>
                   negb (existsb (String.eqb (sketch_id sketch)) models))
                sketches) in
  match missing_ids with
  | [] => ret tt
  | _ =>
      let missing_ids_formatted := join NL (firstn 10 missing_ids) in
      let message :=
        "For the following references, no gene model was found in "
          ++ models_path ++ " (showing the first 10): " ++ NL
          ++ missing_ids_formatted in
      raise (FileNotFoundError message)
  end.

Definition run_mash_dist (query reference : string)
           (opts : option (list string)) : IO (list MashHit) :=
  let command := ["mash"; "dist"] in
  let command := match opts with
                 | Some opts => (command ++ opts)%list
                 | None => command
                 end in
  let command := (command ++ [reference; query])%list in
  result <- subprocess_run command ;;
  if negb (returncode result =? 0)%Z then
    raise (RuntimeError (join NL
      [ "Mash dist returned non-zero exit status "
          ++ of_Z (returncode result) ++ ".";
        "Captured stderr: " ++ stderr result ]))
  else lift (parse_mash_dist (stdout result)).

Definition write_hits (best_hits : pyvalue) (models_path : string)
  : IO unit :=
  match best_hits with
  | PyNone | PyList [] => logging_info "No hits found."
  | PyList best_hits =>
      logging_info ("Found " ++ of_nat (List.length best_hits)
                     ++ " hit(s).") ;;;
      let header := ["Hit"; "Mash_distance"; "Matching hashes"; "p value"] in
      print (join TAB header) ;;;
      for_each (fun hit =>
        let hash_ratio := join "/" [matching_hashes hit; total_hashes hit] in
        let hit_info := [ref_id hit; mash_dist hit; hash_ratio; p_value hit] in
        print (join TAB hit_info)) best_hits
  end.

Definition select_models (query mode : string) (n : Z) (max_dist : float)
           (models_path sketches_path : string) (check : bool)
           (loglevel : option Z) : IO unit :=
  (if check then check_models models_path sketches_path else ret tt) ;;;
  let opts := ["-d"; str_of_float max_dist] in
  hits <- run_mash_dist query sketches_path (Some opts) ;;
  let best_hits := get_best_hits hits mode n in
  write_hits best_hits models_path.

End Pipeline.

(** ** Well-formed listings

    The texts [mash] prints, used to state what the parsers return on
    them. *)

(** A field holds no tab and no newline. *)
Definition is_field (s : string) : bool :=
  negb (contains tab s) && negb (contains newline s).

(** [lines], every one ended by a newline, as [mash] prints them. *)
Fixpoint terminated (lines : list string) : string :=
  match lines with
  | [] => ""
  | l :: ls => l ++ NL ++ terminated ls
  end.

(** The line of [mash info -t] for a sketch. *)
Definition sketch_line (s : Sketch) : string :=
  join TAB [hashes s; length s; sketch_id s; comment s].

Definition wf_sketch (s : Sketch) : bool :=
  is_field (hashes s) && is_field (length s) && is_field (sketch_id s)
  && is_field (comment s).

(** The line of [mash dist] for a hit. *)
Definition hit_line (hit : MashHit) : string :=
  join TAB [ref_id hit; query_id hit; mash_dist hit; p_value hit;
            matching_hashes hit ++ "/" ++ total_hashes hit].

(** The fields of a hit hold no separator, and the two hash counts, being
    integers, hold no ["/"]; the last one does not end in whitespace. *)
Definition wf_hit (hit : MashHit) : bool :=
  is_field (ref_id hit) && is_field (query_id hit) && is_field (mash_dist hit)
  && is_field (p_value hit)
  && is_field (matching_hashes hit) && negb (contains slash (matching_hashes hit))
  && is_field (total_hashes hit) && negb (contains slash (total_hashes hit))
  && String.eqb (rstrip (total_hashes hit)) (total_hashes hit).

(** ** Rows the parsers accept *)

(** [row.split("\t")] unpacks into four names. *)
Definition info_row_ok (row : string) : bool :=
  (List.length (split tab row) =? 4)%nat.

(** [row.split("\t")] unpacks into five names and the fifth piece splits
    at ["/"] into two. *)
Definition dist_row_ok (row : string) : bool :=
  match split tab row with
  | [_; _; _; _; hash_ratio] =>
      (List.length (split slash hash_ratio) =? 2)%nat
  | _ => false
  end.

(** [hit] is what the loop of [parse_mash_dist] builds from [row]. *)
Definition hit_of_row (row : string) (hit : MashHit) : Prop :=
  exists hash_ratio,
    split tab row = [ref_id hit; query_id hit; mash_dist hit; p_value hit;
                     hash_ratio]
    /\ split slash hash_ratio = [matching_hashes hit; total_hashes hit].

(** ** Reading a trace *)

(** A run of [mash dist]: a distance computation. *)
Definition is_dist_run (ev : event) : bool :=
  match ev with
  | Run (program :: subcommand :: _) =>
      String.eqb program "mash" && String.eqb subcommand "dist"
  | _ => false
  end.

(** A line written to standard output; hits are emitted only this way. *)
Definition is_print (ev : event) : bool :=
  match ev with
  | Print _ => true
  | _ => false
  end.

(** ** Messages of check_models *)

(** The sketch ids, in the order of the sketches, that are not among the
    entries of the models directory. *)
Definition missing_ids_of (models : list string) (sketches : list Sketch)
  : list string :=
  filter (fun id => negb (existsb (String.eqb id) models))
         (map sketch_id sketches).

Definition missing_models_message (models_path : string)
           (missing_ids : list string) : string :=
  "For the following references, no gene model was found in "
    ++ models_path ++ " (showing the first 10): " ++ NL
    ++ join NL (firstn 10 missing_ids).

(** ** Rows and output lines *)

(** [sketch] is what the loop of [parse_mash_info] builds from [row]. *)
Definition sketch_of_row (row : string) (sketch : Sketch) : Prop :=
  split tab row
  = [hashes sketch; length sketch; sketch_id sketch; comment sketch].

(** The first line [write_hits] prints. *)
Definition output_header : string :=
  join TAB ["Hit"; "Mash_distance"; "Matching hashes"; "p value"].

(** The line [write_hits] prints for a hit. *)
Definition output_line (hit : MashHit) : string :=
  join TAB [ref_id hit; mash_dist hit;
            join "/" [matching_hashes hit; total_hashes hit]; p_value hit].

(** A call of [subprocess.run]. *)
Definition is_run (ev : event) : bool :=
  match ev with
  | Run _ => true
  | _ => false
  end.

(** ** Commands and failure messages *)

(** The command of [run_mash_info]. *)
Definition info_command (sketches_path : string) : list string :=
  ["mash"; "info"; "-t"; sketches_path].

(** The command of [run_mash_dist] as [select_models] calls it: the
    sketches are the reference, and [opts] is ["-d", str(max_dist)]. *)
Definition dist_command (max_dist query sketches_path : string)
  : list string :=
  ["mash"; "dist"; "-d"; max_dist; sketches_path; query].

(** The message of the [RuntimeError] raised for a non-zero exit status of
    ["mash " ++ tool]. *)
Definition exit_status_message (tool : string) (result : CompletedProcess)
  : string :=
  join NL [ "Mash " ++ tool ++ " returned non-zero exit status "
              ++ of_Z (returncode result) ++ ".";
            "Captured stderr: " ++ stderr result ].

(** ** Sample data *)

Module Sample.

Definition hit (ref_id mash_dist : string) : MashHit :=
  mkMashHit ref_id "query.fna" mash_dist "0" "950" "1000".

Definition hits_with_tie : list MashHit :=
  [hit "ref_a" "0.1"; hit "ref_b" "0.1"; hit "ref_c" "0.2"].

Definition hits_unsorted : list MashHit :=
  [hit "ref_a" "0.3"; hit "ref_b" "0.1"; hit "ref_c" "0.2"].

Definition info_header : string :=
  "#Hashes" ++ TAB ++ "Length" ++ TAB ++ "ID" ++ TAB ++ "Comment".

(** A sketch whose sequence header carried no comment. *)
Definition sketch_without_comment : Sketch :=
  mkSketch "1000" "5000" "ref1" "".

Definition sketch_with_comment : Sketch :=
  mkSketch "1000" "5000" "ref1" "plasmid".

(** A data line of five fields, the last one empty. *)
Definition info_line_trailing_tab : string :=
  "1000" ++ TAB ++ "5000" ++ TAB ++ "ref1" ++ TAB ++ "plasmid" ++ TAB.

(** A distance line of six fields, the last one empty. *)
Definition dist_line_trailing_tab : string :=
  "ref_a" ++ TAB ++ "query.fna" ++ TAB ++ "0.1" ++ TAB ++ "0" ++ TAB
    ++ "950/1000" ++ TAB.

Definition hit_of_other_query : MashHit :=
  mkMashHit "ref_b" "other.fna" "0.2" "0" "900" "1000".

(** A models directory that lacks the model of [ref1]. *)
Definition listdir_without_ref1 (_ : list event) (_ : string)
  : outcome (list string) :=
  Ok ["ref0"].

(** [mash info -t] lists the one sketch [ref1]; any other run prints
    nothing. *)
Definition mash_lists_ref1 (_ : list event) (command : list string)
  : outcome CompletedProcess :=
  match command with
  | [_; "info"; _; _] =>
      Ok (mkCompletedProcess 0
            (terminated [info_header; sketch_line sketch_with_comment]) "")
  | _ => Ok (mkCompletedProcess 0 "" "")
  end.

(** [mash dist] finds the three hits of [hits_with_tie]. *)
Definition mash_finds_hits (_ : list event) (_ : list string)
  : outcome CompletedProcess :=
  Ok (mkCompletedProcess 0 (terminated (map hit_line hits_with_tie)) "").

(** [mash] fails with exit status 1. *)
Definition mash_fails (_ : list event) (_ : list string)
  : outcome CompletedProcess :=
  Ok (mkCompletedProcess 1 "" "ERROR: cannot open the sketch file").

(** [mash dist] finds no reference within the maximum distance. *)
Definition mash_finds_nothing (_ : list event) (_ : list string)
  : outcome CompletedProcess :=
  Ok (mkCompletedProcess 0 "" "").

(** The models directory does not exist. *)
Definition listdir_fails (_ : list event) (_ : string)
  : outcome (list string) :=
  Raise (FileNotFoundError "No such file or directory: 'data/models'").

End Sample.

(** * Properties *)

Local Open Scope list_scope.

(** ** The order of [str] *)

Module StrOrder.

Lemma ascii_compare_lt_trans (a b c : ascii) :
  Ascii.compare a b = Lt -> Ascii.compare b c = Lt -> Ascii.compare a c = Lt.
Proof.
  unfold Ascii.compare. rewrite !N.compare_lt_iff. apply N.lt_trans.
Qed.

Lemma compare_refl (s : string) : String.compare s s = Eq.
Proof.
  induction s as [|c s IH]; simpl; [reflexivity|].
  unfold Ascii.compare. now rewrite N.compare_refl.
Qed.

Lemma compare_lt_trans (a b c : string) :
  String.compare a b = Lt -> String.compare b c = Lt -> String.compare a c = Lt.
Proof.
  revert b c. induction a as [|x a IH]; intros [|y b] [|z c]; simpl;
    try congruence.
  destruct (Ascii.compare x y) eqn:Exy; try discriminate;
    destruct (Ascii.compare y z) eqn:Eyz; try discriminate; intros Hab Hbc.
  - apply Ascii.compare_eq_iff in Exy, Eyz. subst.
    unfold Ascii.compare. rewrite N.compare_refl. eauto.
  - apply Ascii.compare_eq_iff in Exy. subst. now rewrite Eyz.
  - apply Ascii.compare_eq_iff in Eyz. subst. now rewrite Exy.
  - now rewrite (ascii_compare_lt_trans _ _ _ Exy Eyz).
Qed.

Lemma ltb_irrefl (a : string) : (a <? a) = false.
Proof. unfold String.ltb. now rewrite compare_refl. Qed.

Lemma ltb_trans (a b c : string) :
  (a <? b) = true -> (b <? c) = true -> (a <? c) = true.
Proof.
  unfold String.ltb.
  destruct (String.compare a b) eqn:Eab; try discriminate.
  destruct (String.compare b c) eqn:Ebc; try discriminate.
  now rewrite (compare_lt_trans _ _ _ Eab Ebc).
Qed.

(** [<] on [str] is total: two strings neither of which is below the
    other are the same string. *)
Lemma ltb_total (a b : string) :
  (a <? b) = false -> (b <? a) = false -> a = b.
Proof.
  unfold String.ltb. rewrite (String.compare_antisym a b).
  destruct (String.compare b a) eqn:E; simpl; try discriminate.
  intros _ _. symmetry. now apply String.compare_eq_iff.
Qed.

Lemma ltb_cases (a b : string) :
  (a <? b) = true \/ a = b \/ (b <? a) = true.
Proof.
  destruct (a <? b) eqn:Eab; [now left|].
  destruct (b <? a) eqn:Eba; [now right; right|].
  right; left. now apply ltb_total.
Qed.

Lemma geb_trans (a b c : string) :
  (b <? a) = false -> (c <? b) = false -> (c <? a) = false.
Proof.
  intros Hab Hbc. destruct (c <? a) eqn:Eca; [|reflexivity].
  destruct (ltb_cases a b) as [H|[H|H]]; [|subst; congruence|congruence].
  destruct (ltb_cases b c) as [H'|[H'|H']]; [|subst; congruence|congruence].
  pose proof (ltb_trans _ _ _ (ltb_trans _ _ _ H H') Eca) as F.
  rewrite ltb_irrefl in F. discriminate.
Qed.

(** Being neither below nor above is being [==]. *)
Lemma incomparable_eqb (a b : string) :
  negb (a <? b) && negb (b <? a) = String.eqb a b.
Proof.
  destruct (String.eqb_spec a b) as [->|Hne].
  - now rewrite ltb_irrefl.
  - destruct (a <? b) eqn:Eab; [reflexivity|].
    destruct (b <? a) eqn:Eba; [reflexivity|].
    exfalso. apply Hne. now apply ltb_total.
Qed.

End StrOrder.

(** ** [sorted] is the stable sort *)

Section SortedFacts.
Context {A K : Type}.
Variable lt : K -> K -> bool.
Variable key : A -> K.

Hypothesis lt_irrefl : forall a, lt a a = false.
Hypothesis lt_trans :
  forall a b c, lt a b = true -> lt b c = true -> lt a c = true.
Hypothesis ge_trans :
  forall a b c, lt b a = false -> lt c b = false -> lt c a = false.

Lemma lt_asym a b : lt a b = true -> lt b a = false.
Proof.
  intros H. destruct (lt b a) eqn:E; [|reflexivity].
  pose proof (lt_trans _ _ _ H E) as F. now rewrite lt_irrefl in F.
Qed.

Lemma insert_perm x l : Permutation (insert lt key x l) (x :: l).
Proof.
  induction l as [|y l IH]; simpl; [reflexivity|].
  destruct (lt (key y) (key x)); [|reflexivity].
  rewrite IH. apply perm_swap.
Qed.

Lemma sorted_perm l : Permutation (sorted lt key l) l.
Proof.
  induction l as [|x l IH]; simpl; [constructor|].
  rewrite insert_perm. now constructor.
Qed.

Lemma insert_ascending x l :
  StronglySorted (ascending lt key) l -> StronglySorted (ascending lt key) (insert lt key x l).
Proof.
  induction 1 as [|y l Hl IH Hy]; simpl.
  - repeat constructor.
  - destruct (lt (key y) (key x)) eqn:E.
    + constructor; [exact IH|].
      rewrite Forall_forall in *. intros z Hz.
      apply (Permutation_in _ (insert_perm x l)) in Hz.
      destruct Hz as [<-|Hz]; [now apply lt_asym | now apply Hy].
    + constructor; [now constructor|].
      constructor; [exact E|].
      rewrite Forall_forall in *. intros z Hz.
      unfold ascending. apply ge_trans with (b := key y); [exact E|].
      now apply Hy.
Qed.

Lemma sorted_ascending l : StronglySorted (ascending lt key) (sorted lt key l).
Proof.
  induction l as [|x l IH]; simpl; [constructor|].
  now apply insert_ascending.
Qed.

Lemma insert_stable k x l :
  filter (same_key lt key k) (insert lt key x l) = filter (same_key lt key k) (x :: l).
Proof.
  induction l as [|y l IH]; [reflexivity|].
  cbn [insert]. destruct (lt (key y) (key x)) eqn:E; [|reflexivity].
  cbn [filter] in *. rewrite IH.
  destruct (same_key lt key k y) eqn:Ey; [|reflexivity].
  destruct (same_key lt key k x) eqn:Ex; [|reflexivity].
  exfalso. unfold same_key in *.
  apply andb_prop in Ey, Ex. destruct Ey as [_ Ey], Ex as [Ex _].
  apply negb_true_iff in Ey, Ex.
  rewrite (ge_trans _ _ _ Ex Ey) in E. discriminate.
Qed.

(** Elements whose keys compare equal keep their input order. *)
Lemma sorted_stable k l :
  filter (same_key lt key k) (sorted lt key l) = filter (same_key lt key k) l.
Proof.
  induction l as [|x l IH]; [reflexivity|].
  cbn [sorted fold_right]. rewrite insert_stable.
  cbn [filter]. unfold sorted in IH. now rewrite IH.
Qed.

Lemma same_key_refl x : same_key lt key (key x) x = true.
Proof. unfold same_key. now rewrite lt_irrefl. Qed.

Lemma head_is_least x l y :
  StronglySorted (ascending lt key) (x :: l) -> In y (x :: l) -> ascending lt key x y.
Proof.
  intros Hs [<-|Hy]; [apply lt_irrefl|].
  apply StronglySorted_inv in Hs. destruct Hs as [_ Hx].
  rewrite Forall_forall in Hx. now apply Hx.
Qed.

(** Ascending order, the elements, and the input order within each class
    of equal keys determine the list: every stable sort returns
    [sorted lt key l]. *)
Lemma stable_sorted_unique l1 :
  forall l2,
    StronglySorted (ascending lt key) l1 -> StronglySorted (ascending lt key) l2 ->
    (forall k, filter (same_key lt key k) l1 = filter (same_key lt key k) l2) ->
    l1 = l2.
Proof.
  induction l1 as [|a l1 IH]; intros [|b l2] H1 H2 Hf.
  - reflexivity.
  - specialize (Hf (key b)). cbn [filter] in Hf.
    rewrite same_key_refl in Hf. discriminate.
  - specialize (Hf (key a)). cbn [filter] in Hf.
    rewrite same_key_refl in Hf. discriminate.
  - assert (Ha : In a (b :: l2)).
    { pose proof (Hf (key a)) as E. cbn [filter] in E.
      rewrite same_key_refl in E.
      assert (In a (filter (same_key lt key (key a)) (b :: l2)))
        by (cbn [filter]; rewrite <- E; now left).
      apply filter_In in H. tauto. }
    assert (Hb : In b (a :: l1)).
    { pose proof (Hf (key b)) as E. cbn [filter] in E.
      rewrite (same_key_refl b) in E.
      assert (In b (filter (same_key lt key (key b)) (a :: l1)))
        by (cbn [filter]; rewrite E; now left).
      apply filter_In in H. tauto. }
    pose proof (head_is_least _ _ _ H1 Hb) as Hab.
    pose proof (head_is_least _ _ _ H2 Ha) as Hba.
    unfold ascending in Hab, Hba.
    assert (Eab : a = b).
    { pose proof (Hf (key a)) as E. cbn [filter] in E.
      rewrite same_key_refl in E.
      assert (Es : same_key lt key (key a) b = true)
        by (unfold same_key; now rewrite Hab, Hba).
      rewrite Es in E. congruence. }
    subst b. f_equal. apply IH.
    + now apply StronglySorted_inv in H1.
    + now apply StronglySorted_inv in H2.
    + intros k. specialize (Hf k). cbn [filter] in Hf.
      destruct (same_key lt key k a); congruence.
Qed.

End SortedFacts.

(** ** get_best_hits, "standard" mode *)

Lemma StronglySorted_app_inv {A : Type} (R : A -> A -> Prop) (l1 l2 : list A) :
  StronglySorted R (l1 ++ l2) ->
  StronglySorted R l2 /\ (forall a b, In a l1 -> In b l2 -> R a b).
Proof.
  induction l1 as [|x l1 IH]; simpl; intros Hs.
  - split; [exact Hs | intros a b []].
  - apply StronglySorted_inv in Hs. destruct Hs as [Hs Hx].
    destruct (IH Hs) as [H2 H12]. split; [exact H2|].
    intros a b [<-|Ha] Hb; [|now apply H12].
    rewrite Forall_forall in Hx. apply Hx, in_or_app. now right.
Qed.

Lemma last_In {A : Type} (l : list A) (d : A) : l <> [] -> In (last l d) l.
Proof.
  intros Hl. destruct (exists_last Hl) as (l' & a & ->).
  rewrite last_last. apply in_or_app. right. now left.
Qed.

Lemma same_key_mash_dist (d : string) (hit : MashHit) :
  same_key String.ltb mash_dist d hit = String.eqb d (mash_dist hit).
Proof. apply StrOrder.incomparable_eqb. Qed.

Lemma sorted_hits_stable (d : string) (hits : list MashHit) :
  filter (fun hit => String.eqb d (mash_dist hit))
         (sorted String.ltb mash_dist hits)
  = filter (fun hit => String.eqb d (mash_dist hit)) hits.
Proof.
  rewrite <- !(filter_ext _ _ (same_key_mash_dist d)).
  apply sorted_stable. intros a b c. apply StrOrder.geb_trans.
Qed.

(** The loop appends hits while their distance is the one all of
    [best_hits] share, and stops at the first hit with another distance. *)
Lemma standard_loop_spec (d : string) (rest : list MashHit) :
  forall best_hits,
    best_hits <> [] ->
    Forall (fun hit => mash_dist hit = d) best_hits ->
    exists taken left,
      rest = taken ++ left /\
      standard_loop rest best_hits = best_hits ++ taken /\
      Forall (fun hit => mash_dist hit = d) taken /\
      (forall hit, hd_error left = Some hit -> mash_dist hit <> d).
Proof.
  induction rest as [|hit rest IH]; intros best_hits Hne Hall.
  - exists [], []. cbn. rewrite app_nil_r. repeat split; try constructor.
    discriminate.
  - cbn [standard_loop].
    assert (Hlast : mash_dist (last best_hits hit) = d).
    { rewrite Forall_forall in Hall. now apply Hall, last_In. }
    rewrite Hlast.
    destruct (String.eqb_spec (mash_dist hit) d) as [Heq|Hneq]; cbn [negb].
    + destruct (IH (best_hits ++ [hit])) as (taken & left & -> & Hloop & Ht & Hl).
      * now destruct best_hits.
      * apply Forall_app. split; [exact Hall | now constructor].
      * exists (hit :: taken), left. rewrite Hloop, <- app_assoc.
        repeat split; try assumption. now constructor.
    + exists [], (hit :: rest). rewrite app_nil_r.
      repeat split; try constructor.
      cbn. intros ? [= <-]. exact Hneq.
Qed.

(** X22: in "standard" mode, for a non-empty list of hits, with the
    distances compared as the [str] values the hits hold (Python's [<] and
    [!=] on [str], not their numeric values): the returned list [best] is a
    prefix of the stable sort of the input by [mash_dist] in that order; it
    starts with the first sorted hit, all of its hits have exactly that
    hit's [mash_dist], and the hit that follows it in the sorted list, if
    any, has another.  The sorted list is a permutation of the input,
    ascending in that order, and keeps the input order among hits of equal
    [mash_dist]; so [best] is the hits whose [mash_dist] is least in the
    order of [str], in their input order. *)
Theorem get_best_hits_standard_tie_group (hits : list MashHit) (n : Z) :
  hits <> [] ->
  let sorted_hits := sorted String.ltb mash_dist hits in
  exists first best rest,
    get_best_hits hits "standard" n = PyList best /\
    sorted_hits = best ++ rest /\
    hd_error sorted_hits = Some first /\
    hd_error best = Some first /\
    Forall (fun hit => mash_dist hit = mash_dist first) best /\
    (forall hit, hd_error rest = Some hit ->
                 mash_dist hit <> mash_dist first) /\
    Permutation sorted_hits hits /\
    StronglySorted (ascending String.ltb mash_dist) sorted_hits /\
    (forall d, filter (fun hit => String.eqb d (mash_dist hit)) sorted_hits
               = filter (fun hit => String.eqb d (mash_dist hit)) hits) /\
    (forall hit, In hit hits ->
                 (mash_dist hit <? mash_dist first) = false) /\
    best = filter (fun hit => String.eqb (mash_dist first) (mash_dist hit))
                  hits.
Proof.
  intros Hne sorted_hits.
  assert (Hperm : Permutation sorted_hits hits) by apply sorted_perm.
  assert (Hasc : StronglySorted (ascending String.ltb mash_dist) sorted_hits).
  { apply sorted_ascending;
      [ exact StrOrder.ltb_irrefl | exact StrOrder.ltb_trans
      | exact StrOrder.geb_trans ]. }
  destruct sorted_hits as [|first rest0] eqn:Es.
  { apply Permutation_nil in Hperm. contradiction. }
  destruct (standard_loop_spec (mash_dist first) rest0 [first])
    as (taken & left & -> & Hloop & Htaken & Hleft);
    [discriminate | now repeat constructor |].
  exists first, (first :: taken), left.
  assert (Hleast : forall hit, In hit hits ->
                     (mash_dist hit <? mash_dist first) = false).
  { intros hit Hin. apply (Permutation_in _ (Permutation_sym Hperm)) in Hin.
    exact (head_is_least String.ltb mash_dist StrOrder.ltb_irrefl
             _ _ _ Hasc Hin). }
  assert (Hrest : forall hit, In hit left ->
                    String.eqb (mash_dist first) (mash_dist hit) = false).
  { intros hit Hin. destruct left as [|next left']; [destruct Hin|].
    specialize (Hleft next eq_refl).
    change (first :: taken ++ next :: left')
      with ((first :: taken) ++ next :: left') in Hasc.
    apply StronglySorted_app_inv in Hasc. destruct Hasc as [Hl Hcross].
    assert (Hfn : (mash_dist first <? mash_dist next) = true).
    { specialize (Hcross first next (or_introl eq_refl) (or_introl eq_refl)).
      unfold ascending in Hcross.
      destruct (StrOrder.ltb_cases (mash_dist first) (mash_dist next))
        as [H|[H|H]]; [exact H | now symmetry in H | congruence]. }
    apply String.eqb_neq. intros Heq.
    destruct Hin as [<-|Hin]; [now symmetry in Heq|].
    apply StronglySorted_inv in Hl. destruct Hl as [_ Hn].
    rewrite Forall_forall in Hn. specialize (Hn hit Hin).
    unfold ascending in Hn. congruence. }
  split; [|split; [reflexivity|split; [reflexivity|split; [reflexivity|
    split; [now constructor|split; [exact Hleft|split; [exact Hperm|
    split; [exact Hasc|split; [|split; [exact Hleast|]]]]]]]]]].
  - unfold get_best_hits. destruct hits as [|h0 hits']; [contradiction|].
    fold sorted_hits. change (String.eqb "standard" "standard") with true.
    cbv iota. rewrite Es, Hloop. reflexivity.
  - intros d. rewrite <- Es. apply sorted_hits_stable.
  - rewrite <- (sorted_hits_stable (mash_dist first) hits).
    fold sorted_hits. rewrite Es.
    change (first :: taken ++ left) with ((first :: taken) ++ left).
    rewrite filter_app.
    replace (filter _ left) with (@nil MashHit).
    + rewrite app_nil_r. symmetry. apply forallb_filter_id.
      apply forallb_forall. intros hit [<-|Hin]; [apply String.eqb_refl|].
      rewrite Forall_forall in Htaken. rewrite (Htaken _ Hin).
      apply String.eqb_refl.
    + symmetry. rewrite <- (filter_false left).
      apply filter_ext_in. exact Hrest.
Qed.
(** ** [rstrip], [split] and [join] *)

Lemma append_assoc (a b c : string) :
  ((a ++ b) ++ c)%string = (a ++ (b ++ c))%string.
Proof. induction a as [|x a IH]; simpl; [reflexivity | now rewrite IH]. Qed.

Lemma append_nil_r (a : string) : (a ++ "")%string = a.
Proof. induction a as [|x a IH]; simpl; [reflexivity | now rewrite IH]. Qed.

Lemma append_not_empty (a b : string) : b <> "" -> (a ++ b)%string <> "".
Proof. destruct a; simpl; [tauto | discriminate]. Qed.

Lemma rstrip_app_keep (s t : string) :
  rstrip t <> "" -> rstrip (s ++ t) = (s ++ rstrip t)%string.
Proof.
  intros Ht. induction s as [|c s IH]; [reflexivity|].
  cbn [append rstrip]. rewrite IH.
  pose proof (append_not_empty s _ Ht) as Hne.
  destruct (s ++ rstrip t)%string; [contradiction | reflexivity].
Qed.

Lemma rstrip_app_drop (s t : string) :
  rstrip t = "" -> rstrip (s ++ t) = rstrip s.
Proof.
  intros Ht. induction s as [|c s IH]; [exact Ht|].
  cbn [append rstrip]. now rewrite IH.
Qed.

Lemma rstrip_spaces (s : string) :
  (forall c, In c (list_ascii_of_string s) -> is_space c = true) ->
  rstrip s = "".
Proof.
  induction s as [|c s IH]; intros Hs; [reflexivity|].
  cbn [rstrip]. rewrite IH by (intros d Hd; apply Hs; now right).
  rewrite (Hs c) by now left. reflexivity.
Qed.

Lemma contains_app (c : ascii) (s t : string) :
  contains c (s ++ t) = contains c s || contains c t.
Proof.
  induction s as [|d s IH]; [reflexivity|].
  cbn [append contains]. now rewrite IH, orb_assoc.
Qed.

Lemma split_no_sep (sep : ascii) (s : string) :
  contains sep s = false -> split sep s = [s].
Proof.
  induction s as [|c s IH]; [reflexivity|].
  cbn [contains split]. intros H. apply orb_false_elim in H.
  destruct H as [Hc Hs]. now rewrite Hc, (IH Hs).
Qed.

Lemma split_app (sep : ascii) (s t : string) :
  contains sep s = false ->
  split sep (s ++ String sep t) = s :: split sep t.
Proof.
  induction s as [|c s IH]; cbn [append contains split].
  - intros _. now rewrite Ascii.eqb_refl.
  - intros H. apply orb_false_elim in H. destruct H as [Hc Hs].
    now rewrite Hc, (IH Hs).
Qed.

Lemma split_join (sep : ascii) (parts : list string) :
  parts <> [] ->
  Forall (fun p => contains sep p = false) parts ->
  split sep (join (String sep "") parts) = parts.
Proof.
  induction parts as [|p parts IH]; [congruence|].
  intros _ Hall. apply Forall_cons_iff in Hall. destruct Hall as [Hp Hall].
  destruct parts as [|q parts]; [now apply split_no_sep|].
  change (join (String sep "") (p :: q :: parts))
    with (p ++ String sep (join (String sep "") (q :: parts)))%string.
  rewrite split_app by exact Hp. f_equal. now apply IH.
Qed.

Lemma contains_join (c sep : ascii) (parts : list string) :
  c <> sep ->
  Forall (fun p => contains c p = false) parts ->
  contains c (join (String sep "") parts) = false.
Proof.
  intros Hc. induction 1 as [|p parts Hp Hall IH]; [reflexivity|].
  destruct parts as [|q parts]; [exact Hp|].
  change (join (String sep "") (p :: q :: parts))
    with (p ++ String sep (join (String sep "") (q :: parts)))%string.
  rewrite contains_app, Hp. cbn [contains orb].
  rewrite IH. now destruct (Ascii.eqb_spec sep c); [subst; contradiction|].
Qed.

Lemma terminated_join (l : string) (ls : list string) :
  terminated (l :: ls) = (join NL (l :: ls) ++ NL)%string.
Proof.
  revert l. induction ls as [|l' ls IH]; intros l.
  - reflexivity.
  - change (terminated (l :: l' :: ls))
      with (l ++ NL ++ terminated (l' :: ls))%string.
    change (join NL (l :: l' :: ls))
      with (l ++ NL ++ join NL (l' :: ls))%string.
    now rewrite IH, !append_assoc.
Qed.

Lemma join_cons (sep l : string) (ls : list string) :
  ls <> [] -> join sep (l :: ls) = (l ++ sep ++ join sep ls)%string.
Proof. destruct ls; [congruence | reflexivity]. Qed.

Lemma join_last_not_empty (sep : string) (ls : list string) (l : string) :
  l <> "" -> join sep (ls ++ [l]) <> "".
Proof.
  intros Hl. induction ls as [|l' ls IH]; [exact Hl|].
  cbn [app]. rewrite join_cons by now destruct ls.
  apply append_not_empty, append_not_empty, IH.
Qed.

(** Trimming a text whose last line ends in a character that is not
    whitespace changes nothing. *)
Lemma rstrip_join_lines (ls : list string) (last_line : string) :
  rstrip last_line = last_line -> last_line <> "" ->
  rstrip (join NL (ls ++ [last_line])) = join NL (ls ++ [last_line]).
Proof.
  intros Hr Hne. induction ls as [|l ls IH]; [exact Hr|].
  cbn [app]. rewrite join_cons by now destruct ls.
  rewrite <- append_assoc, rstrip_app_keep; rewrite IH; [reflexivity|].
  now apply join_last_not_empty.
Qed.

Lemma rstrip_fixed_app (s t : string) :
  rstrip t = t /\ t <> "" ->
  rstrip (s ++ t) = (s ++ t)%string /\ (s ++ t)%string <> "".
Proof.
  intros [Hr Hne]. split; [|now apply append_not_empty].
  rewrite rstrip_app_keep; rewrite Hr; [reflexivity | exact Hne].
Qed.

Lemma rstrip_cons_fixed (c : ascii) (t : string) :
  is_space c = false -> rstrip t = t ->
  rstrip (String c t) = String c t /\ String c t <> "".
Proof.
  intros Hc Hr. split; [|discriminate].
  cbn [rstrip]. rewrite Hr, Hc. now destruct t.
Qed.

Lemma truthy_not_empty (s : string) : s <> "" -> truthy s = true.
Proof. destruct s; [congruence | reflexivity]. Qed.

Lemma is_field_tab (s : string) : is_field s = true -> contains tab s = false.
Proof.
  unfold is_field. intros H. apply andb_prop in H.
  now apply negb_true_iff.
Qed.

Lemma is_field_newline (s : string) :
  is_field s = true -> contains newline s = false.
Proof.
  unfold is_field. intros H. apply andb_prop in H.
  now apply negb_true_iff.
Qed.

(** ** parse_mash_dist on well-formed text *)

Ltac split_wf H :=
  repeat match type of H with
         | (_ && _) = true =>
             let H' := fresh "Hwf" in
             apply andb_prop in H; destruct H as [H H']
         end.

Lemma split_hit_line (hit : MashHit) :
  wf_hit hit = true ->
  split tab (hit_line hit)
  = [ref_id hit; query_id hit; mash_dist hit; p_value hit;
     (matching_hashes hit ++ "/" ++ total_hashes hit)%string]
  /\ split slash (matching_hashes hit ++ "/" ++ total_hashes hit)
     = [matching_hashes hit; total_hashes hit].
Proof.
  intros Hwf. unfold wf_hit in Hwf. split_wf Hwf.
  apply negb_true_iff in Hwf3, Hwf1. split.
  - apply (split_join tab); [discriminate|].
    repeat constructor; try now apply is_field_tab.
    rewrite contains_app, (is_field_tab _ Hwf4). cbn.
    now apply is_field_tab.
  - change (matching_hashes hit ++ "/" ++ total_hashes hit)%string
      with (matching_hashes hit ++ String slash (total_hashes hit))%string.
    rewrite split_app by exact Hwf3. now rewrite split_no_sep.
Qed.

Lemma hit_line_no_newline (hit : MashHit) :
  wf_hit hit = true -> contains newline (hit_line hit) = false.
Proof.
  intros Hwf. unfold wf_hit in Hwf. split_wf Hwf.
  apply (contains_join newline tab); [discriminate|].
  repeat constructor; try now apply is_field_newline.
  rewrite contains_app, (is_field_newline _ Hwf4). cbn.
  now apply is_field_newline.
Qed.

Lemma rstrip_hit_line (hit : MashHit) :
  wf_hit hit = true ->
  rstrip (hit_line hit) = hit_line hit /\ hit_line hit <> "".
Proof.
  intros Hwf. unfold wf_hit in Hwf. split_wf Hwf.
  apply String.eqb_eq in Hwf0.
  unfold hit_line. cbn [join].
  do 9 apply rstrip_fixed_app.
  now apply (rstrip_cons_fixed "/"%char).
Qed.

Lemma parse_mash_dist_rows_lines (hits : list MashHit) :
  forallb wf_hit hits = true ->
  forall parsed,
    parse_mash_dist_rows (map hit_line hits) parsed = Some (parsed ++ hits).
Proof.
  induction hits as [|hit hits IH]; intros Hwf parsed.
  - cbn. now rewrite app_nil_r.
  - cbn [forallb] in Hwf. apply andb_prop in Hwf. destruct Hwf as [Hhit Hwf].
    destruct (split_hit_line hit Hhit) as [Htab Hslash].
    cbn [map parse_mash_dist_rows]. rewrite Htab, Hslash, (IH Hwf).
    rewrite <- app_assoc. now destruct hit.
Qed.

Lemma split_lines (lines : list string) :
  lines <> [] ->
  Forall (fun l => contains newline l = false) lines ->
  split newline (join NL lines) = lines.
Proof. apply split_join. Qed.

Lemma hit_lines_no_newline (hits : list MashHit) :
  forallb wf_hit hits = true ->
  Forall (fun l => contains newline l = false) (map hit_line hits).
Proof.
  intros Hwf. apply Forall_map, Forall_forall. intros hit Hin.
  apply hit_line_no_newline.
  rewrite forallb_forall in Hwf. now apply Hwf.
Qed.

(** Trimming a well-formed distance listing removes at most the final
    newline. *)
Lemma rstrip_dist_listing (hits : list MashHit) :
  hits <> [] -> forallb wf_hit hits = true ->
  let text := join NL (map hit_line hits) in
  rstrip text = text /\ text <> ""
  /\ rstrip (terminated (map hit_line hits)) = text.
Proof.
  intros Hne Hwf text.
  destruct (exists_last Hne) as (init & final & E).
  assert (Hfinal : wf_hit final = true).
  { rewrite forallb_forall in Hwf. apply Hwf. subst hits.
    apply in_or_app. right. now left. }
  destruct (rstrip_hit_line final Hfinal) as [Hr Hn].
  assert (Htext : text = join NL (map hit_line init ++ [hit_line final]))
    by (subst text hits; now rewrite map_app).
  assert (H1 : rstrip text = text)
    by (rewrite Htext; now apply rstrip_join_lines).
  split; [exact H1|]. split.
  - rewrite Htext. now apply join_last_not_empty.
  - destruct hits as [|hit hits']; [congruence|].
    cbn [map]. rewrite terminated_join.
    rewrite rstrip_app_drop by reflexivity. exact H1.
Qed.

(** C5: on a well-formed distance listing of k lines (one line per hit,
    five tab-separated fields, the last of the form matching/total, lines
    separated or ended by newlines) [parse_mash_dist] returns exactly the k
    hits in the order of their lines, with [matching_hashes] and
    [total_hashes] taken from the two parts of the hash ratio; on the
    empty text it returns the empty list. *)
Theorem parse_mash_dist_well_formed (hits : list MashHit) (text : string) :
  forallb wf_hit hits = true ->
  text = terminated (map hit_line hits) \/ text = join NL (map hit_line hits) ->
  parse_mash_dist text = Ok hits /\ parse_mash_dist "" = Ok [].
Proof.
  intros Hwf Htext. split; [|reflexivity].
  destruct hits as [|hit hits'] eqn:Eh.
  { destruct Htext as [-> | ->]; reflexivity. }
  rewrite <- Eh in *.
  assert (Hne : hits <> []) by (rewrite Eh; discriminate).
  destruct (rstrip_dist_listing hits Hne Hwf) as (Hr & Hn & Ht).
  assert (Hrows : parse_mash_dist_rows
                    (split newline (join NL (map hit_line hits))) []
                  = Some hits).
  { rewrite split_lines.
    - now rewrite parse_mash_dist_rows_lines.
    - rewrite Eh. discriminate.
    - now apply hit_lines_no_newline. }
  unfold parse_mash_dist. destruct Htext as [-> | ->].
  - rewrite Ht, Hrows, truthy_not_empty; [reflexivity|].
    rewrite Eh. cbn [map]. rewrite terminated_join.
    now apply append_not_empty.
  - rewrite Hr, Hrows. now rewrite truthy_not_empty.
Qed.

(** ** What the row loops accept and reject *)

Lemma parse_mash_info_rows_ok (rows : list string) :
  forall sketches,
    forallb info_row_ok rows = true ->
    exists parsed,
      parse_mash_info_rows rows sketches = Some (sketches ++ parsed)
      /\ List.length parsed = List.length rows.
Proof.
  induction rows as [|row rows IH]; intros sketches Hok.
  - exists []. now rewrite app_nil_r.
  - cbn [forallb] in Hok. apply andb_prop in Hok. destruct Hok as [Hrow Hok].
    unfold info_row_ok in Hrow. cbn [parse_mash_info_rows].
    destruct (split tab row) as [|f1 [|f2 [|f3 [|f4 [|f5 fs]]]]];
      try discriminate.
    destruct (IH (sketches ++ [mkSketch f1 f2 f3 f4]) Hok) as (parsed & E & L).
    exists (mkSketch f1 f2 f3 f4 :: parsed).
    rewrite E, <- app_assoc. cbn. now rewrite L.
Qed.

(** All or nothing: one row that does not unpack loses every sketch
    collected before it. *)
Lemma parse_mash_info_rows_rejects (rows : list string) :
  forall sketches,
    forallb info_row_ok rows = false ->
    parse_mash_info_rows rows sketches = None.
Proof.
  induction rows as [|row rows IH]; intros sketches Hbad; [discriminate|].
  cbn [forallb] in Hbad. cbn [parse_mash_info_rows].
  unfold info_row_ok in Hbad.
  destruct (split tab row) as [|f1 [|f2 [|f3 [|f4 [|f5 fs]]]]];
    try reflexivity.
  apply IH. exact Hbad.
Qed.

Lemma parse_mash_dist_rows_rejects (rows : list string) :
  forall hits,
    forallb dist_row_ok rows = false ->
    parse_mash_dist_rows rows hits = None.
Proof.
  induction rows as [|row rows IH]; intros hits Hbad; [discriminate|].
  cbn [forallb] in Hbad. cbn [parse_mash_dist_rows].
  unfold dist_row_ok in Hbad.
  destruct (split tab row) as [|f1 [|f2 [|f3 [|f4 [|f5 [|f6 fs]]]]]];
    try reflexivity.
  destruct (split slash f5) as [|m [|t [|x xs]]]; try reflexivity.
  apply IH. exact Hbad.
Qed.

Lemma parse_mash_dist_rows_inv (rows : list string) :
  forall hits parsed,
    parse_mash_dist_rows rows hits = Some parsed ->
    exists new, parsed = hits ++ new /\ Forall2 hit_of_row rows new.
Proof.
  induction rows as [|row rows IH]; intros hits parsed.
  - cbn. intros [= <-]. exists []. rewrite app_nil_r. now split.
  - cbn [parse_mash_dist_rows].
    destruct (split tab row) as [|f1 [|f2 [|f3 [|f4 [|f5 [|f6 fs]]]]]] eqn:Er;
      try discriminate.
    destruct (split slash f5) as [|m [|t [|x xs]]] eqn:Es; try discriminate.
    intros H. apply IH in H. destruct H as (new & -> & Hnew).
    exists (mkMashHit f1 f2 f3 f4 m t :: new).
    rewrite <- app_assoc. split; [reflexivity|].
    constructor; [|exact Hnew]. exists f5. cbn. now rewrite Er, Es.
Qed.

(** After the trailing whitespace of a non-empty text is trimmed, a data
    row that does not unpack into four fields makes [parse_mash_info]
    raise, and nothing is returned. *)
Lemma parse_mash_info_rejects_trimmed (text row : string) :
  text <> "" ->
  In row (tl (split newline (rstrip text))) ->
  List.length (split tab row) <> 4%nat ->
  parse_mash_info text = Raise mash_info_format_error.
Proof.
  intros Hne Hin Hlen. unfold parse_mash_info.
  rewrite truthy_not_empty by exact Hne. cbn [negb].
  rewrite parse_mash_info_rows_rejects; [reflexivity|].
  apply not_true_is_false. intros Hall.
  rewrite forallb_forall in Hall. specialize (Hall row Hin).
  unfold info_row_ok in Hall. now apply Nat.eqb_eq in Hall.
Qed.

Lemma parse_mash_dist_rejects_trimmed (text row : string) :
  text <> "" ->
  In row (split newline (rstrip text)) ->
  dist_row_ok row = false ->
  parse_mash_dist text = Raise mash_dist_format_error.
Proof.
  intros Hne Hin Hbad. unfold parse_mash_dist.
  rewrite truthy_not_empty by exact Hne. cbn [negb].
  rewrite parse_mash_dist_rows_rejects; [reflexivity|].
  apply not_true_is_false. intros Hall.
  rewrite forallb_forall in Hall. specialize (Hall row Hin). congruence.
Qed.

(** ** The pipeline and its trace *)

Section PipelineFacts.
Variable listdir_result : list event -> string -> outcome (list string).
Variable run_result : list event -> list string -> outcome CompletedProcess.
Variable float : Type.
Variable str_of_float : float -> string.

Lemma run_mash_info_trace (sketches_path : string) (tr : list event) :
  snd (run_mash_info run_result sketches_path tr)
  = tr ++ [Run ["mash"; "info"; "-t"; sketches_path]].
Proof.
  unfold run_mash_info, bind, subprocess_run, raise, lift.
  destruct (run_result tr _) as [result|e]; [|reflexivity].
  now destruct (negb _).
Qed.

Lemma run_mash_dist_trace (query reference : string)
      (opts : option (list string)) (tr : list event) :
  exists command,
    snd (run_mash_dist run_result query reference opts tr)
    = tr ++ [Run ("mash" :: "dist" :: command)].
Proof.
  unfold run_mash_dist, bind, subprocess_run, raise, lift.
  destruct opts as [opts|]; cbn [app];
    (eexists; destruct (run_result tr _) as [result|e];
     [now destruct (negb _) | reflexivity]).
Qed.

(** [check_models] lists the directory and runs [mash info]; it starts
    no distance computation and prints nothing. *)
Lemma check_models_trace (models_path sketches_path : string)
      (tr : list event) :
  exists evs,
    snd (check_models listdir_result run_result models_path sketches_path tr)
    = tr ++ evs
    /\ existsb is_dist_run evs = false
    /\ existsb is_print evs = false.
Proof.
  unfold check_models, bind, os_listdir.
  destruct (listdir_result tr models_path) as [models|e].
  2:{ exists [Listdir models_path]. now repeat split. }
  pose proof (run_mash_info_trace sketches_path (tr ++ [Listdir models_path]))
    as Ht.
  destruct (run_mash_info run_result sketches_path _) as [[sketches|e] tr1].
  2:{ cbn [snd] in *. subst tr1. rewrite <- app_assoc.
      eexists. split; [reflexivity|]. now split. }
  cbn [snd] in Ht. subst tr1. unfold logging_info, emit.
  rewrite <- !app_assoc.
  destruct (map sketch_id _); unfold ret, raise; cbn [snd];
    (eexists; split; [reflexivity | now split]).
Qed.

Lemma for_each_print_ok (line_of : MashHit -> string)
      (best_hits : list MashHit) (tr : list event) :
  fst (for_each (fun hit => print (line_of hit)) best_hits tr) = Ok tt.
Proof.
  revert tr. induction best_hits as [|hit best_hits IH]; intros tr;
    [reflexivity|].
  cbn [for_each]. unfold bind, print, emit at 1. apply IH.
Qed.

(** Writing hits cannot fail. *)
Lemma write_hits_ok (best_hits : pyvalue) (models_path : string)
      (tr : list event) :
  fst (write_hits best_hits models_path tr) = Ok tt.
Proof.
  destruct best_hits as [[|hit best_hits]|]; try reflexivity.
  unfold write_hits, bind, logging_info, print, emit at 1 2.
  apply for_each_print_ok.
Qed.

End PipelineFacts.

(** ** get_best_hits, the other modes *)

(** X10: for [n >= 0], "best_n" mode returns the first [n] sorted hits,
    all of them when [n] is at least their number, none when [n = 0]. *)
Lemma get_best_hits_best_n_nonnegative (hits : list MashHit) (n : Z) :
  (0 <= n)%Z ->
  let sorted_hits := sorted String.ltb mash_dist hits in
  get_best_hits hits "best_n" n = PyList (firstn (Z.to_nat n) sorted_hits)
  /\ (Z.of_nat (List.length hits) <= n ->
      get_best_hits hits "best_n" n = PyList sorted_hits)%Z
  /\ (n = 0%Z -> get_best_hits hits "best_n" n = PyList []).
Proof.
  intros Hn sorted_hits.
  assert (E : get_best_hits hits "best_n" n
              = PyList (firstn (Z.to_nat n) sorted_hits)).
  { destruct hits as [|hit hits]; [now rewrite firstn_nil|].
    unfold get_best_hits, slice_to.
    change (String.eqb "best_n" "standard") with false.
    change (String.eqb "best_n" "best_n") with true. cbv iota.
    apply Z.leb_le in Hn. now rewrite Hn. }
  split; [exact E|]. split.
  - intros Hlen. rewrite E. f_equal. apply firstn_all2. unfold sorted_hits.
    rewrite (Permutation_length (sorted_perm String.ltb mash_dist hits)).
    lia.
  - intros ->. now rewrite E.
Qed.

(** X11: for [n < 0], the slice [sorted_hits[:n]] drops the last [-n]
    sorted hits and returns the others. *)
Lemma get_best_hits_best_n_negative (hits : list MashHit) (n : Z) :
  (n < 0)%Z ->
  get_best_hits hits "best_n" n
  = PyList (firstn (List.length hits - Z.to_nat (- n))
                   (sorted String.ltb mash_dist hits)).
Proof.
  intros Hn. destruct hits as [|hit hits]; [reflexivity|].
  unfold get_best_hits, slice_to.
  change (String.eqb "best_n" "standard") with false.
  change (String.eqb "best_n" "best_n") with true. cbv iota.
  apply Z.leb_gt in Hn. rewrite Hn.
  now rewrite (Permutation_length (sorted_perm String.ltb mash_dist _)).
Qed.

(** C2 (the code departs from it): in "best_n" mode with [n = -1] and
    three hits, [get_best_hits] returns the two hits of lowest distance
    instead of the empty list. *)
Theorem get_best_hits_best_n_minus_one :
  get_best_hits Sample.hits_unsorted "best_n" (-1)
  = PyList [Sample.hit "ref_b" "0.1"; Sample.hit "ref_c" "0.2"].
Proof. reflexivity. Qed.

(** C8 (the code departs from it): for a non-empty list of hits and a
    mode that is neither "standard" nor "best_n", [get_best_hits] raises
    nothing and returns [None]. *)
Theorem get_best_hits_unrecognized_mode
        (hits : list MashHit) (mode : string) (n : Z) :
  hits <> [] -> mode <> "standard" -> mode <> "best_n" ->
  get_best_hits hits mode n = PyNone.
Proof.
  intros Hne Hs Hb. destruct hits as [|hit hits]; [congruence|].
  unfold get_best_hits.
  apply String.eqb_neq in Hs, Hb. now rewrite Hs, Hb.
Qed.

Lemma get_best_hits_unrecognized_mode_witness :
  Sample.hits_with_tie <> [] /\ "top" <> "standard" /\ "top" <> "best_n"
  /\ get_best_hits Sample.hits_with_tie "top" 1 = PyNone.
Proof.
  assert (H1 : Sample.hits_with_tie <> []) by discriminate.
  assert (H2 : "top" <> "standard") by discriminate.
  assert (H3 : "top" <> "best_n") by discriminate.
  split; [exact H1 | split; [exact H2 | split; [exact H3|]]].
  exact (get_best_hits_unrecognized_mode Sample.hits_with_tie "top" 1 H1 H2 H3).
Defined.

(** The pipeline then reports that nothing was found. *)
Lemma write_hits_none (models_path : string) (tr : list event) :
  write_hits PyNone models_path tr = (Ok tt, tr ++ [LogInfo "No hits found."]).
Proof. reflexivity. Qed.

Lemma get_best_hits_standard_tie_group_witness :
  Sample.hits_with_tie <> []
  /\ exists first best rest,
       get_best_hits Sample.hits_with_tie "standard" 1 = PyList best /\
       sorted String.ltb mash_dist Sample.hits_with_tie = best ++ rest /\
       hd_error (sorted String.ltb mash_dist Sample.hits_with_tie)
       = Some first /\
       hd_error best = Some first /\
       Forall (fun hit => mash_dist hit = mash_dist first) best /\
       (forall hit, hd_error rest = Some hit ->
                    mash_dist hit <> mash_dist first) /\
       Permutation (sorted String.ltb mash_dist Sample.hits_with_tie)
                   Sample.hits_with_tie /\
       StronglySorted (ascending String.ltb mash_dist)
                      (sorted String.ltb mash_dist Sample.hits_with_tie) /\
       (forall d,
           filter (fun hit => String.eqb d (mash_dist hit))
                  (sorted String.ltb mash_dist Sample.hits_with_tie)
           = filter (fun hit => String.eqb d (mash_dist hit))
                    Sample.hits_with_tie) /\
       (forall hit, In hit Sample.hits_with_tie ->
                    (mash_dist hit <? mash_dist first) = false) /\
       best = filter (fun hit => String.eqb (mash_dist first) (mash_dist hit))
                     Sample.hits_with_tie.
Proof.
  assert (H : Sample.hits_with_tie <> []) by discriminate.
  split; [exact H|].
  exact (get_best_hits_standard_tie_group Sample.hits_with_tie 1 H).
Defined.

(** The two hits of distance 0.1 come back in their input order. *)
Example get_best_hits_standard_sample :
  get_best_hits Sample.hits_with_tie "standard" 1
  = PyList [Sample.hit "ref_a" "0.1"; Sample.hit "ref_b" "0.1"].
Proof. reflexivity. Qed.

(** C1 (the code departs from it): the hits are sorted by the text of
    [mash_dist], which the parser stored unconverted, not by the distance.
    On the two lines that [mash dist] prints for distances 0.1 and
    2.38e-05, in "standard" mode, [get_best_hits] returns the hit of
    distance 0.1 and leaves out the hit of distance 2.38e-05, the lowest:
    as text, "2.38e-05" is not below "0.1". *)
Theorem get_best_hits_standard_sorts_text :
  let hits := [Sample.hit "ref_a" "0.1"; Sample.hit "ref_b" "2.38e-05"] in
  parse_mash_dist (terminated (map hit_line hits)) = Ok hits
  /\ ("2.38e-05" <? "0.1") = false
  /\ sorted String.ltb mash_dist hits = hits
  /\ get_best_hits hits "standard" 1 = PyList [Sample.hit "ref_a" "0.1"].
Proof. repeat split; vm_compute; reflexivity. Qed.

(** Distances are compared as the [str] the parser stored: a distance
    that [mash] prints in scientific notation sorts after one in plain
    decimal notation. *)
Example get_best_hits_compares_text :
  get_best_hits [Sample.hit "ref_a" "0.1"; Sample.hit "ref_b" "2.38e-05"]
                "standard" 1
  = PyList [Sample.hit "ref_a" "0.1"].
Proof. reflexivity. Qed.

(** ** parse_mash_info on well-formed text *)

Lemma contains_rstrip (c : ascii) (s : string) :
  contains c s = false -> contains c (rstrip s) = false.
Proof.
  induction s as [|d s IH]; [reflexivity|].
  cbn [contains rstrip]. intros H. apply orb_false_elim in H.
  destruct H as [Hd Hs]. specialize (IH Hs).
  destruct (rstrip s); [destruct (is_space d)|]; cbn [contains];
    try reflexivity; rewrite Hd; [reflexivity | exact IH].
Qed.

Lemma split_sketch_line (s : Sketch) :
  wf_sketch s = true ->
  split tab (sketch_line s) = [hashes s; length s; sketch_id s; comment s].
Proof.
  intros Hwf. unfold wf_sketch in Hwf. split_wf Hwf.
  apply (split_join tab); [discriminate|].
  repeat constructor; now apply is_field_tab.
Qed.

Lemma sketch_line_no_newline (s : Sketch) :
  wf_sketch s = true -> contains newline (sketch_line s) = false.
Proof.
  intros Hwf. unfold wf_sketch in Hwf. split_wf Hwf.
  apply (contains_join newline tab); [discriminate|].
  repeat constructor; now apply is_field_newline.
Qed.

Lemma rstrip_sketch_line (s : Sketch) :
  comment s <> "" -> rstrip (comment s) = comment s ->
  rstrip (sketch_line s) = sketch_line s /\ sketch_line s <> "".
Proof.
  intros Hne Hr. unfold sketch_line. cbn [join].
  do 6 apply rstrip_fixed_app. now split.
Qed.

Lemma parse_mash_info_rows_lines (sketches : list Sketch) :
  forallb wf_sketch sketches = true ->
  forall parsed,
    parse_mash_info_rows (map sketch_line sketches) parsed
    = Some (parsed ++ sketches).
Proof.
  induction sketches as [|s sketches IH]; intros Hwf parsed.
  - cbn. now rewrite app_nil_r.
  - cbn [forallb] in Hwf. apply andb_prop in Hwf. destruct Hwf as [Hs Hwf].
    cbn [map parse_mash_info_rows].
    rewrite (split_sketch_line s Hs), (IH Hwf), <- app_assoc.
    now destruct s.
Qed.

(** X8: a header line followed by one line of four fields per sketch
    parses into those sketches, in order, provided the comment of the last
    sketch is not empty and does not end in whitespace. *)
Lemma parse_mash_info_well_formed
      (header text : string) (init : list Sketch) (final : Sketch) :
  contains newline header = false ->
  forallb wf_sketch (init ++ [final]) = true ->
  comment final <> "" -> rstrip (comment final) = comment final ->
  text = terminated (header :: map sketch_line (init ++ [final]))
  \/ text = join NL (header :: map sketch_line (init ++ [final])) ->
  parse_mash_info text = Ok (init ++ [final]).
Proof.
  intros Hh Hwf Hne Hr Htext.
  destruct (rstrip_sketch_line final Hne Hr) as [Hrl Hnl].
  set (lines := header :: map sketch_line (init ++ [final])) in *.
  assert (El : lines = (header :: map sketch_line init) ++ [sketch_line final])
    by (subst lines; now rewrite map_app).
  assert (Hfix : rstrip (join NL lines) = join NL lines)
    by (rewrite El; now apply rstrip_join_lines).
  assert (Hnz : join NL lines <> "")
    by (rewrite El; now apply join_last_not_empty).
  assert (Hrows : parse_mash_info_rows (tl (split newline (join NL lines))) []
                  = Some (init ++ [final])).
  { rewrite split_lines.
    - subst lines. cbn [tl]. now rewrite parse_mash_info_rows_lines.
    - subst lines. discriminate.
    - subst lines. constructor; [exact Hh|].
      apply Forall_map, Forall_forall. intros s Hs.
      apply sketch_line_no_newline.
      rewrite forallb_forall in Hwf. now apply Hwf. }
  unfold parse_mash_info. destruct Htext as [-> | ->].
  - subst lines. rewrite terminated_join.
    rewrite rstrip_app_drop by reflexivity.
    rewrite Hfix, Hrows, truthy_not_empty; [reflexivity|].
    now apply append_not_empty.
  - rewrite Hfix, Hrows. now rewrite truthy_not_empty.
Qed.

(** A header line alone, or no text at all, gives no sketches. *)
Lemma parse_mash_info_header_only (header : string) :
  contains newline header = false ->
  parse_mash_info header = Ok []
  /\ parse_mash_info (header ++ NL) = Ok []
  /\ parse_mash_info "" = Ok [].
Proof.
  intros Hh.
  assert (E : parse_mash_info_rows (tl (split newline (rstrip header))) []
              = Some []).
  { rewrite split_no_sep; [reflexivity | now apply contains_rstrip]. }
  unfold parse_mash_info. rewrite rstrip_app_drop by reflexivity.
  rewrite E. repeat split; now destruct (negb _).
Qed.

(** ** The parsers on particular texts *)

Lemma parse_mash_dist_well_formed_witness :
  forallb wf_hit Sample.hits_with_tie = true
  /\ (terminated (map hit_line Sample.hits_with_tie)
      = terminated (map hit_line Sample.hits_with_tie)
      \/ terminated (map hit_line Sample.hits_with_tie)
         = join NL (map hit_line Sample.hits_with_tie))
  /\ parse_mash_dist (terminated (map hit_line Sample.hits_with_tie))
     = Ok Sample.hits_with_tie
  /\ parse_mash_dist "" = Ok [].
Proof.
  assert (H1 : forallb wf_hit Sample.hits_with_tie = true) by reflexivity.
  assert (H2 : terminated (map hit_line Sample.hits_with_tie)
               = terminated (map hit_line Sample.hits_with_tie)
               \/ terminated (map hit_line Sample.hits_with_tie)
                  = join NL (map hit_line Sample.hits_with_tie))
    by (left; reflexivity).
  split; [exact H1 | split; [exact H2|]].
  exact (parse_mash_dist_well_formed Sample.hits_with_tie _ H1 H2).
Defined.

(** C10: on a non-empty text of whitespace characters only,
    [parse_mash_dist] raises its format error, and [parse_mash_info]
    returns the empty list. *)
Theorem parsers_on_whitespace (text : string) :
  text <> "" ->
  (forall c, In c (list_ascii_of_string text) -> is_space c = true) ->
  parse_mash_dist text = Raise mash_dist_format_error
  /\ parse_mash_info text = Ok [].
Proof.
  intros Hne Hspace. unfold parse_mash_dist, parse_mash_info.
  rewrite (rstrip_spaces text Hspace), (truthy_not_empty text Hne).
  split; reflexivity.
Qed.

Lemma parsers_on_whitespace_witness :
  (" " ++ NL)%string <> ""
  /\ (forall c, In c (list_ascii_of_string (" " ++ NL)) -> is_space c = true)
  /\ parse_mash_dist (" " ++ NL) = Raise mash_dist_format_error
  /\ parse_mash_info (" " ++ NL) = Ok [].
Proof.
  assert (H1 : (" " ++ NL)%string <> "") by discriminate.
  assert (H2 : forall c, In c (list_ascii_of_string (" " ++ NL)) ->
                         is_space c = true).
  { intros c [<-|[<-|[]]]; reflexivity. }
  split; [exact H1 | split; [exact H2|]].
  exact (parsers_on_whitespace (" " ++ NL) H1 H2).
Defined.

(** C3 (the code departs from it): a sketch listing whose data line has
    five fields, the last one empty, is parsed without error into one
    sketch, and a distance line of six fields, the last one empty, into
    one hit: the trailing tab is trimmed with the whitespace at the end of
    the text before the fields are counted. *)
Theorem trailing_tab_hides_wrong_field_count :
  split newline (Sample.info_header ++ NL ++ Sample.info_line_trailing_tab)
  = [Sample.info_header; Sample.info_line_trailing_tab]
  /\ List.length (split tab Sample.info_line_trailing_tab) = 5%nat
  /\ parse_mash_info
       (Sample.info_header ++ NL ++ Sample.info_line_trailing_tab)
     = Ok [Sample.sketch_with_comment]
  /\ split newline Sample.dist_line_trailing_tab
     = [Sample.dist_line_trailing_tab]
  /\ List.length (split tab Sample.dist_line_trailing_tab) = 6%nat
  /\ parse_mash_dist Sample.dist_line_trailing_tab
     = Ok [Sample.hit "ref_a" "0.1"].
Proof. repeat split; reflexivity. Qed.

(** C4 (the code departs from it): a header line followed by one data
    line of exactly four tab-separated fields, the comment being empty,
    makes [parse_mash_info] raise its format error instead of returning one
    sketch, with or without the final newline: the tab before the empty
    comment is trimmed with the whitespace at the end of the text. *)
Theorem parse_mash_info_empty_last_comment :
  wf_sketch Sample.sketch_without_comment = true
  /\ split tab (sketch_line Sample.sketch_without_comment)
     = ["1000"; "5000"; "ref1"; ""]
  /\ parse_mash_info
       (terminated [Sample.info_header;
                    sketch_line Sample.sketch_without_comment])
     = Raise mash_info_format_error
  /\ parse_mash_info
       (join NL [Sample.info_header;
                 sketch_line Sample.sketch_without_comment])
     = Raise mash_info_format_error
  /\ parse_mash_info "" = Ok [].
Proof. repeat split; reflexivity. Qed.

(** With a comment on the last line the same listing parses. *)
Example parse_mash_info_sample :
  parse_mash_info
    (terminated [Sample.info_header; sketch_line Sample.sketch_with_comment])
  = Ok [Sample.sketch_with_comment].
Proof. reflexivity. Qed.

(** ** parse_mash_dist and query ids *)

(** [parse_mash_dist] does not compare the query ids of the lines. *)
Lemma parse_mash_dist_mixed_query_ids :
  ~ (forall text hits hit1 hit2,
        parse_mash_dist text = Ok hits ->
        In hit1 hits -> In hit2 hits -> query_id hit1 = query_id hit2).
Proof.
  intros H.
  specialize (H (terminated (map hit_line
                   [Sample.hit "ref_a" "0.1"; Sample.hit_of_other_query]))
                [Sample.hit "ref_a" "0.1"; Sample.hit_of_other_query]
                (Sample.hit "ref_a" "0.1") Sample.hit_of_other_query
                eq_refl (or_introl eq_refl) (or_intror (or_introl eq_refl))).
  discriminate H.
Qed.

(** C9, amended: every hit returned by [parse_mash_dist] has as
    [query_id] the second field of its line; so when the second field of
    every line of the trimmed text is [q], every returned hit has query
    id [q]. *)
Theorem parse_mash_dist_query_ids (text q : string) (hits : list MashHit) :
  parse_mash_dist text = Ok hits ->
  (forall row, In row (split newline (rstrip text)) ->
               nth_error (split tab row) 1 = Some q) ->
  Forall (fun hit => query_id hit = q) hits.
Proof.
  unfold parse_mash_dist. intros Hparse Hrows.
  destruct (negb (truthy text)).
  { injection Hparse as <-. constructor. }
  destruct (parse_mash_dist_rows _ []) as [parsed|] eqn:E; [|discriminate].
  injection Hparse as ->.
  apply parse_mash_dist_rows_inv in E. destruct E as (new & -> & Hnew).
  cbn [app]. revert Hrows Hnew. generalize (split newline (rstrip text)).
  intros all_rows Hrows Hnew.
  induction Hnew as [|row hit rows new' Hhit Hnew IH]; constructor.
  - destruct Hhit as (hash_ratio & Hfields & _).
    specialize (Hrows row (or_introl eq_refl)).
    rewrite Hfields in Hrows. cbn in Hrows. congruence.
  - apply IH. intros r Hr. apply Hrows. now right.
Qed.

Lemma parse_mash_dist_query_ids_witness :
  parse_mash_dist (terminated (map hit_line Sample.hits_with_tie))
  = Ok Sample.hits_with_tie
  /\ (forall row,
         In row (split newline
                   (rstrip (terminated (map hit_line Sample.hits_with_tie)))) ->
         nth_error (split tab row) 1 = Some "query.fna")
  /\ Forall (fun hit => query_id hit = "query.fna") Sample.hits_with_tie.
Proof.
  assert (H1 : parse_mash_dist (terminated (map hit_line Sample.hits_with_tie))
               = Ok Sample.hits_with_tie) by (vm_compute; reflexivity).
  assert (H2 : forall row,
             In row (split newline
                       (rstrip (terminated
                                  (map hit_line Sample.hits_with_tie)))) ->
             nth_error (split tab row) 1 = Some "query.fna").
  { intros row Hin. vm_compute in Hin.
    destruct Hin as [<-|[<-|[<-|[]]]]; vm_compute; reflexivity. }
  split; [exact H1 | split; [exact H2|]].
  exact (parse_mash_dist_query_ids _ "query.fna" Sample.hits_with_tie H1 H2).
Defined.

(** ** check_models *)

Lemma existsb_eqb_In (id : string) (models : list string) :
  existsb (String.eqb id) models = true <-> In id models.
Proof.
  rewrite existsb_exists. split.
  - intros (m & Hm & E). apply String.eqb_eq in E. now subst.
  - intros H. exists id. split; [exact H | apply String.eqb_refl].
Qed.

Lemma missing_ids_of_filter (models : list string) (sketches : list Sketch) :
  map sketch_id
      (filter (fun sketch =>
                 negb (existsb (String.eqb (sketch_id sketch)) models))
              sketches)
  = missing_ids_of models sketches.
Proof.
  unfold missing_ids_of. induction sketches as [|s sketches IH];
    [reflexivity|].
  cbn [filter map]. destruct (negb _); cbn [map]; now rewrite IH.
Qed.

Lemma missing_ids_of_nil (models : list string) (sketches : list Sketch) :
  missing_ids_of models sketches = []
  <-> forall sketch, In sketch sketches -> In (sketch_id sketch) models.
Proof.
  unfold missing_ids_of. split.
  - intros E sketch Hin. apply existsb_eqb_In.
    destruct (existsb _ models) eqn:Ex; [reflexivity|].
    assert (Hf : In (sketch_id sketch)
                    (filter (fun id => negb (existsb (String.eqb id) models))
                            (map sketch_id sketches))).
    { apply filter_In. split; [now apply in_map | now rewrite Ex]. }
    rewrite E in Hf. destruct Hf.
  - intros Hall.
    rewrite <- (filter_false (map sketch_id sketches)).
    apply filter_ext_in. intros id Hid. apply in_map_iff in Hid.
    destruct Hid as (sketch & <- & Hin).
    apply negb_false_iff, existsb_eqb_In. now apply Hall.
Qed.

Section CheckModels.
Variable listdir_result : list event -> string -> outcome (list string).
Variable run_result : list event -> list string -> outcome CompletedProcess.

(** What [check_models] does once the directory listing and the sketch
    listing have been obtained. *)
Lemma check_models_after_listing
      (models_path sketches_path : string) (tr tr1 : list event)
      (models : list string) (sketches : list Sketch) :
  listdir_result tr models_path = Ok models ->
  run_mash_info run_result sketches_path (tr ++ [Listdir models_path])
  = (Ok sketches, tr1) ->
  check_models listdir_result run_result models_path sketches_path tr
  = (match missing_ids_of models sketches with
     | [] => Ok tt
     | missing_ids =>
         Raise (FileNotFoundError
                  (missing_models_message models_path missing_ids))
     end,
     tr1 ++ [LogInfo ("Found " ++ of_nat (List.length sketches)
                        ++ " reference sketches.")]).
Proof.
  intros Hdir Hinfo. unfold check_models, bind, os_listdir.
  rewrite Hdir, Hinfo. unfold logging_info, emit.
  rewrite missing_ids_of_filter.
  now destruct (missing_ids_of models sketches).
Qed.

(** C6: once the directory and the sketches are listed, [check_models]
    raises [FileNotFoundError] (the missing-model error) if and only if
    the id of some sketch is not among the model entries; the message
    then lists the first 10, at most, of the missing ids in the order
    of the sketches; and when every sketch id is present it returns
    without raising and without printing. *)
Theorem check_models_raises_iff_missing
        (models_path sketches_path : string) (tr tr1 : list event)
        (models : list string) (sketches : list Sketch) :
  listdir_result tr models_path = Ok models ->
  run_mash_info run_result sketches_path (tr ++ [Listdir models_path])
  = (Ok sketches, tr1) ->
  let run :=
    check_models listdir_result run_result models_path sketches_path tr in
  ((exists e, fst run = Raise e)
   <-> (exists sketch, In sketch sketches
                       /\ ~ In (sketch_id sketch) models))
  /\ (forall e, fst run = Raise e ->
        e = FileNotFoundError
              (missing_models_message models_path
                 (missing_ids_of models sketches))
        /\ missing_ids_of models sketches <> [])
  /\ ((forall sketch, In sketch sketches -> In (sketch_id sketch) models)
      -> fst run = Ok tt
         /\ exists evs, snd run = tr ++ evs /\ existsb is_print evs = false).
Proof.
  intros Hdir Hinfo run.
  pose proof (check_models_after_listing _ _ _ _ _ _ Hdir Hinfo) as E.
  fold run in E.
  pose proof (missing_ids_of_nil models sketches) as Hnil.
  destruct (missing_ids_of models sketches) as [|id ids] eqn:Em.
  - rewrite E. cbn [fst snd]. split; [|split].
    + split; [intros (e & He); discriminate|].
      intros (sketch & Hin & Hnot). exfalso.
      apply Hnot. now apply (proj1 Hnil).
    + intros e He. discriminate.
    + intros _. split; [reflexivity|].
      destruct (check_models_trace listdir_result run_result
                  models_path sketches_path tr) as (evs & Hevs & _ & Hp).
      fold run in Hevs. rewrite E in Hevs. cbn [snd] in Hevs.
      exists evs. now split.
  - rewrite E. cbn [fst snd]. split; [|split].
    + split; [|intros _; eexists; reflexivity].
      intros _.
      assert (Hid : In id (missing_ids_of models sketches))
        by (rewrite Em; now left).
      unfold missing_ids_of in Hid. apply filter_In in Hid.
      destruct Hid as [Hid Hneg]. apply in_map_iff in Hid.
      destruct Hid as (sketch & <- & Hin). exists sketch.
      split; [exact Hin|]. intros Hmem.
      apply existsb_eqb_In in Hmem. rewrite Hmem in Hneg. discriminate.
    + intros e [= <-]. split; [reflexivity | discriminate].
    + intros Hall. apply (proj2 Hnil) in Hall. discriminate.
Qed.

End CheckModels.

Lemma check_models_raises_iff_missing_witness :
  let tr1 := [Listdir "data/models";
              Run ["mash"; "info"; "-t"; "data/reference.msh"]] in
  let run := check_models Sample.listdir_without_ref1 Sample.mash_lists_ref1
                          "data/models" "data/reference.msh" [] in
  Sample.listdir_without_ref1 [] "data/models" = Ok ["ref0"]
  /\ run_mash_info Sample.mash_lists_ref1 "data/reference.msh"
                   ([] ++ [Listdir "data/models"])
     = (Ok [Sample.sketch_with_comment], tr1)
  /\ fst run
     = Raise (FileNotFoundError
                (missing_models_message "data/models" ["ref1"])).
Proof.
  intros tr1 run.
  assert (H1 : Sample.listdir_without_ref1 [] "data/models" = Ok ["ref0"])
    by reflexivity.
  assert (H2 : run_mash_info Sample.mash_lists_ref1 "data/reference.msh"
                             ([] ++ [Listdir "data/models"])
               = (Ok [Sample.sketch_with_comment], tr1))
    by (vm_compute; reflexivity).
  split; [exact H1 | split; [exact H2|]].
  destruct (check_models_raises_iff_missing
              Sample.listdir_without_ref1 Sample.mash_lists_ref1
              "data/models" "data/reference.msh" [] tr1
              ["ref0"] [Sample.sketch_with_comment] H1 H2)
    as (Hiff & Hmsg & _).
  fold run in Hiff, Hmsg.
  destruct (proj2 Hiff) as (e & He).
  - exists Sample.sketch_with_comment. split; [now left|].
    intros [H|[]]. discriminate H.
  - rewrite He. f_equal. exact (proj1 (Hmsg e He)).
Defined.

(** ** select_models *)

Section SelectModels.
Variable listdir_result : list event -> string -> outcome (list string).
Variable run_result : list event -> list string -> outcome CompletedProcess.
Variable float : Type.
Variable str_of_float : float -> string.

(** Whenever [select_models] raises, nothing was printed. *)
Lemma select_models_raise_prints_nothing
      (query mode : string) (n : Z) (max_dist : float)
      (models_path sketches_path : string) (check : bool)
      (loglevel : option Z) (tr tr1 : list event) (e : exn) :
  select_models listdir_result run_result float str_of_float
                query mode n max_dist models_path sketches_path check
                loglevel tr
  = (Raise e, tr1) ->
  exists evs, tr1 = tr ++ evs /\ existsb is_print evs = false.
Proof.
  unfold select_models. unfold bind at 1.
  assert (Hcheck : exists evs,
             snd ((if check
                   then check_models listdir_result run_result
                                     models_path sketches_path
                   else ret tt) tr) = tr ++ evs
             /\ existsb is_print evs = false).
  { destruct check.
    - destruct (check_models_trace listdir_result run_result
                  models_path sketches_path tr) as (evs & E & _ & Hp).
      now exists evs.
    - exists []. cbn. now rewrite app_nil_r. }
  destruct Hcheck as (evs & Hevs & Hp).
  destruct ((if check
             then check_models listdir_result run_result
                               models_path sketches_path
             else ret tt) tr) as [[[]|e0] tr0].
  2:{ intros [= <- <-]. cbn [snd] in Hevs. now exists evs. }
  cbn [snd] in Hevs. subst tr0. unfold bind.
  destruct (run_mash_dist_trace run_result query sketches_path
              (Some ["-d"; str_of_float max_dist]) (tr ++ evs))
    as (command & Hd).
  destruct (run_mash_dist run_result query sketches_path _ (tr ++ evs))
    as [[hits|e0] tr0].
  - intros H.
    pose proof (write_hits_ok (get_best_hits hits mode n) models_path tr0)
      as Hw.
    rewrite H in Hw. discriminate.
  - intros [= <- <-]. cbn [snd] in Hd. subst tr0.
    exists (evs ++ [Run ("mash" :: "dist" :: command)]).
    rewrite app_assoc. split; [reflexivity|].
    rewrite existsb_app, Hp. reflexivity.
Qed.

(** C7: with the check flag set, an exception raised by [check_models]
    (the missing-model error among them) leaves [select_models]
    unchanged, and up to then no [mash dist] has been run and nothing has
    been printed; and whenever [select_models] raises, with or without the
    check, no line has been printed: no hit is emitted on a failure
    path. *)
Theorem select_models_failure
        (query mode : string) (n : Z) (max_dist : float)
        (models_path sketches_path : string) (loglevel : option Z)
        (tr : list event) :
  (forall e tr1,
      check_models listdir_result run_result models_path sketches_path tr
      = (Raise e, tr1) ->
      select_models listdir_result run_result float str_of_float
                    query mode n max_dist models_path sketches_path true
                    loglevel tr
      = (Raise e, tr1)
      /\ exists evs, tr1 = tr ++ evs
                     /\ existsb is_dist_run evs = false
                     /\ existsb is_print evs = false)
  /\ (forall check e tr1,
         select_models listdir_result run_result float str_of_float
                       query mode n max_dist models_path sketches_path
                       check loglevel tr
         = (Raise e, tr1) ->
         exists evs, tr1 = tr ++ evs /\ existsb is_print evs = false).
Proof.
  split.
  - intros e tr1 Hcheck. split.
    + unfold select_models. unfold bind at 1.
      now rewrite Hcheck.
    + destruct (check_models_trace listdir_result run_result
                  models_path sketches_path tr) as (evs & E & Hd & Hp).
      rewrite Hcheck in E. cbn [snd] in E. now exists evs.
  - intros check e tr1. apply select_models_raise_prints_nothing.
Qed.

End SelectModels.

Lemma select_models_failure_witness :
  let e := FileNotFoundError (missing_models_message "data/models" ["ref1"]) in
  let tr1 := [Listdir "data/models";
              Run ["mash"; "info"; "-t"; "data/reference.msh"];
              LogInfo "Found 1 reference sketches."] in
  check_models Sample.listdir_without_ref1 Sample.mash_lists_ref1
               "data/models" "data/reference.msh" []
  = (Raise e, tr1)
  /\ select_models Sample.listdir_without_ref1 Sample.mash_lists_ref1
                   string (fun max_dist => max_dist)
                   "query.fna" "standard" 1 "0.3"
                   "data/models" "data/reference.msh" true None []
     = (Raise e, tr1).
Proof.
  intros e tr1.
  assert (H : check_models Sample.listdir_without_ref1 Sample.mash_lists_ref1
                           "data/models" "data/reference.msh" []
              = (Raise e, tr1)) by (vm_compute; reflexivity).
  split; [exact H|].
  exact (proj1 (proj1 (select_models_failure
                         Sample.listdir_without_ref1 Sample.mash_lists_ref1
                         string (fun max_dist => max_dist)
                         "query.fna" "standard" 1 "0.3"
                         "data/models" "data/reference.msh" None [])
                      e tr1 H)).
Defined.

(** When the check passes, the distances are computed and the best hit is
    printed. *)
Example select_models_sample :
  snd (select_models
         (fun _ _ => Ok ["ref1"])
         (fun _ command =>
            match command with
            | [_; "dist"; _; _; _; _] =>
                Ok (mkCompletedProcess 0
                      (terminated (map hit_line Sample.hits_with_tie)) "")
            | _ => Sample.mash_lists_ref1 [] command
            end)
         string (fun max_dist => max_dist)
         "query.fna" "best_n" 1 "0.3"
         "data/models" "data/reference.msh" true None [])
  = [Listdir "data/models";
     Run ["mash"; "info"; "-t"; "data/reference.msh"];
     LogInfo "Found 1 reference sketches.";
     Run ["mash"; "dist"; "-d"; "0.3"; "data/reference.msh"; "query.fna"];
     LogInfo "Found 1 hit(s).";
     Print ("Hit" ++ TAB ++ "Mash_distance" ++ TAB ++ "Matching hashes"
              ++ TAB ++ "p value");
     Print ("ref_a" ++ TAB ++ "0.1" ++ TAB ++ "950/1000" ++ TAB ++ "0")].
Proof. vm_compute. reflexivity. Qed.


(** * Further properties of the code *)

(** ** get_best_hits in every mode *)

Lemma StronglySorted_app_l {A : Type} (R : A -> A -> Prop) (l1 l2 : list A) :
  StronglySorted R (l1 ++ l2) -> StronglySorted R l1.
Proof.
  induction l1 as [|x l1 IH]; cbn [app]; intros Hs; [constructor|].
  apply StronglySorted_inv in Hs. destruct Hs as [Hs Hx].
  constructor; [now apply IH|].
  apply Forall_app in Hx. tauto.
Qed.

Lemma sorted_hits_ascending (hits : list MashHit) :
  StronglySorted (ascending String.ltb mash_dist)
                 (sorted String.ltb mash_dist hits).
Proof.
  apply sorted_ascending;
    [ exact StrOrder.ltb_irrefl | exact StrOrder.ltb_trans
    | exact StrOrder.geb_trans ].
Qed.

Lemma get_best_hits_nonempty (hits : list MashHit) (mode : string) (n : Z) :
  hits <> [] ->
  get_best_hits hits mode n
  = if String.eqb mode "standard" then
      match sorted String.ltb mash_dist hits with
      | first :: rest => PyList (standard_loop rest [first])
      | [] => PyList []
      end
    else if String.eqb mode "best_n"
         then PyList (slice_to (sorted String.ltb mash_dist hits) n)
         else PyNone.
Proof. destruct hits; [congruence | reflexivity]. Qed.

Lemma get_best_hits_prefix (hits best : list MashHit) (mode : string) (n : Z) :
  get_best_hits hits mode n = PyList best ->
  exists rest, sorted String.ltb mash_dist hits = best ++ rest.
Proof.
  destruct hits as [|hit hits'] eqn:Eh.
  { cbn. intros [= <-]. now exists []. }
  rewrite <- Eh. rewrite get_best_hits_nonempty by (rewrite Eh; discriminate).
  destruct (String.eqb mode "standard").
  - destruct (sorted String.ltb mash_dist hits) as [|first rest0].
    + intros [= <-]. now exists [].
    + destruct (standard_loop_spec (mash_dist first) rest0 [first])
        as (taken & left & -> & Hloop & _);
        [discriminate | now repeat constructor |].
      rewrite Hloop. intros [= <-]. now exists left.
  - destruct (String.eqb mode "best_n"); [|discriminate].
    intros [= <-]. unfold slice_to.
    destruct (0 <=? n)%Z; eexists; symmetry; apply firstn_skipn.
Qed.

(** X1: whatever the mode and whatever [n], negative ones included, a
    list returned by [get_best_hits] is a prefix of the stable ascending
    sort of the hits: it holds only hits of the input, no more of them
    than the input has, in ascending order of distance. *)
Theorem get_best_hits_prefix_of_sorted
        (hits best : list MashHit) (mode : string) (n : Z) :
  get_best_hits hits mode n = PyList best ->
  (exists rest, sorted String.ltb mash_dist hits = best ++ rest)
  /\ (forall hit, In hit best -> In hit hits)
  /\ List.length best <= List.length hits
  /\ StronglySorted (ascending String.ltb mash_dist) best.
Proof.
  intros H. destruct (get_best_hits_prefix _ _ _ _ H) as (rest & E).
  pose proof (sorted_perm String.ltb mash_dist hits) as Hperm.
  pose proof (sorted_hits_ascending hits) as Hasc.
  rewrite E in Hperm, Hasc.
  split; [now exists rest|]. split; [|split].
  - intros hit Hin. apply (Permutation_in _ Hperm).
    apply in_or_app. now left.
  - rewrite <- (Permutation_length Hperm), length_app. lia.
  - now apply StronglySorted_app_l in Hasc.
Qed.

Lemma get_best_hits_prefix_of_sorted_witness :
  get_best_hits Sample.hits_unsorted "best_n" (-1)
  = PyList [Sample.hit "ref_b" "0.1"; Sample.hit "ref_c" "0.2"]
  /\ (forall hit,
         In hit [Sample.hit "ref_b" "0.1"; Sample.hit "ref_c" "0.2"] ->
         In hit Sample.hits_unsorted).
Proof.
  assert (H : get_best_hits Sample.hits_unsorted "best_n" (-1)
              = PyList [Sample.hit "ref_b" "0.1"; Sample.hit "ref_c" "0.2"])
    by reflexivity.
  split; [exact H|].
  exact (proj1 (proj2 (get_best_hits_prefix_of_sorted _ _ _ _ H))).
Defined.

(** X2: for a non-empty list of hits, "best_n" mode with [n = 1], the
    default of the command line, returns the one hit that "standard" mode
    returns first: the first hit of the sorted list. *)
Theorem get_best_hits_best_n_one_heads_standard
        (hits : list MashHit) (n : Z) :
  hits <> [] ->
  exists first others,
    get_best_hits hits "best_n" 1 = PyList [first]
    /\ get_best_hits hits "standard" n = PyList (first :: others)
    /\ hd_error (sorted String.ltb mash_dist hits) = Some first.
Proof.
  intros Hne.
  pose proof (sorted_perm String.ltb mash_dist hits) as Hperm.
  destruct (sorted String.ltb mash_dist hits) as [|first rest0] eqn:Es.
  { apply Permutation_nil in Hperm. contradiction. }
  destruct (standard_loop_spec (mash_dist first) rest0 [first])
    as (taken & left & -> & Hloop & _);
    [discriminate | now repeat constructor |].
  exists first, taken.
  rewrite !get_best_hits_nonempty by exact Hne.
  rewrite Es, Hloop. now repeat split.
Qed.

Lemma get_best_hits_best_n_one_heads_standard_witness :
  Sample.hits_with_tie <> []
  /\ exists first others,
       get_best_hits Sample.hits_with_tie "best_n" 1 = PyList [first]
       /\ get_best_hits Sample.hits_with_tie "standard" 5
          = PyList (first :: others)
       /\ hd_error (sorted String.ltb mash_dist Sample.hits_with_tie)
          = Some first.
Proof.
  assert (H : Sample.hits_with_tie <> []) by discriminate.
  split; [exact H|].
  exact (get_best_hits_best_n_one_heads_standard Sample.hits_with_tie 5 H).
Defined.

Lemma sorted_hits_idempotent (hits : list MashHit) :
  sorted String.ltb mash_dist (sorted String.ltb mash_dist hits)
  = sorted String.ltb mash_dist hits.
Proof.
  apply (stable_sorted_unique String.ltb mash_dist StrOrder.ltb_irrefl).
  - apply sorted_hits_ascending.
  - apply sorted_hits_ascending.
  - intros k. apply sorted_stable. exact StrOrder.geb_trans.
Qed.

(** X3: sorting the hits by distance beforehand changes nothing:
    [get_best_hits] returns the same value on the stably sorted list as on
    the list itself, in every mode and for every [n]. *)
Theorem get_best_hits_presorted (hits : list MashHit) (mode : string) (n : Z) :
  get_best_hits (sorted String.ltb mash_dist hits) mode n
  = get_best_hits hits mode n.
Proof.
  destruct hits as [|hit hits'] eqn:Eh; [reflexivity|].
  rewrite <- Eh.
  pose proof (sorted_perm String.ltb mash_dist hits) as Hperm.
  pose proof (sorted_hits_idempotent hits) as Hid.
  assert (Hne : hits <> []) by (rewrite Eh; discriminate).
  rewrite (get_best_hits_nonempty hits) by exact Hne.
  rewrite get_best_hits_nonempty, Hid; [reflexivity|].
  intros Es. rewrite Es in Hperm. apply Permutation_nil in Hperm.
  contradiction.
Qed.

(** ** What the parsers keep of the text *)

Lemma split_not_nil (sep : ascii) (s : string) : split sep s <> [].
Proof.
  destruct s as [|c s]; cbn [split]; [discriminate|].
  destruct (Ascii.eqb c sep); [discriminate|].
  destruct (split sep s); discriminate.
Qed.

Lemma join_cons_char (sep : string) (c : ascii) (w : string)
      (ws : list string) :
  join sep (String c w :: ws) = String c (join sep (w :: ws)).
Proof. destruct ws; reflexivity. Qed.

(** Joining the pieces of a split gives the string back. *)
Lemma join_split (sep : ascii) (s : string) :
  join (String sep "") (split sep s) = s.
Proof.
  induction s as [|c s IH]; [reflexivity|].
  cbn [split]. pose proof (split_not_nil sep s) as Hne.
  destruct (Ascii.eqb_spec c sep) as [->|Hc].
  - rewrite join_cons by exact Hne. cbn. now rewrite IH.
  - destruct (split sep s) as [|w ws]; [contradiction|].
    now rewrite join_cons_char, IH.
Qed.

Lemma split_pieces_no_sep (sep : ascii) (s : string) :
  Forall (fun p => contains sep p = false) (split sep s).
Proof.
  induction s as [|c s IH]; [now repeat constructor|].
  cbn [split]. destruct (Ascii.eqb c sep) eqn:Ec.
  - constructor; [reflexivity | exact IH].
  - destruct (split sep s) as [|w ws];
      [constructor; [cbn; now rewrite Ec | constructor]|].
    apply Forall_cons_iff in IH. destruct IH as [Hw Hws].
    constructor; [|exact Hws]. cbn [contains]. now rewrite Ec.
Qed.

Lemma split_pieces_keep_out (c sep : ascii) (s : string) :
  contains c s = false ->
  Forall (fun p => contains c p = false) (split sep s).
Proof.
  induction s as [|d s IH]; [now repeat constructor|].
  cbn [contains split]. intros H. apply orb_false_elim in H.
  destruct H as [Hd Hs]. specialize (IH Hs).
  destruct (Ascii.eqb d sep).
  - constructor; [reflexivity | exact IH].
  - destruct (split sep s) as [|w ws];
      [constructor; [cbn; now rewrite Hd | constructor]|].
    apply Forall_cons_iff in IH. destruct IH as [Hw Hws].
    constructor; [|exact Hws]. cbn [contains]. now rewrite Hd.
Qed.

Lemma hit_of_row_line (row : string) (hit : MashHit) :
  hit_of_row row hit -> hit_line hit = row.
Proof.
  intros (hash_ratio & Hfields & Hratio).
  rewrite <- (join_split tab row), Hfields.
  unfold hit_line. do 5 f_equal.
  rewrite <- (join_split slash hash_ratio), Hratio. reflexivity.
Qed.

Lemma sketch_of_row_line (row : string) (sketch : Sketch) :
  sketch_of_row row sketch -> sketch_line sketch = row.
Proof.
  unfold sketch_of_row. intros Hfields.
  rewrite <- (join_split tab row), Hfields. reflexivity.
Qed.

Lemma parse_mash_info_rows_inv (rows : list string) :
  forall sketches parsed,
    parse_mash_info_rows rows sketches = Some parsed ->
    exists new, parsed = sketches ++ new /\ Forall2 sketch_of_row rows new.
Proof.
  induction rows as [|row rows IH]; intros sketches parsed.
  - cbn. intros [= <-]. exists []. rewrite app_nil_r. now split.
  - cbn [parse_mash_info_rows].
    destruct (split tab row) as [|f1 [|f2 [|f3 [|f4 [|f5 fs]]]]] eqn:Er;
      try discriminate.
    intros H. apply IH in H. destruct H as (new & -> & Hnew).
    exists (mkSketch f1 f2 f3 f4 :: new).
    rewrite <- app_assoc. split; [reflexivity|].
    constructor; [exact Er | exact Hnew].
Qed.

Lemma parse_mash_dist_rows_ok (rows : list string) :
  forall hits,
    forallb dist_row_ok rows = true ->
    exists parsed, parse_mash_dist_rows rows hits = Some parsed.
Proof.
  induction rows as [|row rows IH]; intros hits Hok; [now eexists|].
  cbn [forallb] in Hok. apply andb_prop in Hok. destruct Hok as [Hrow Hok].
  unfold dist_row_ok in Hrow. cbn [parse_mash_dist_rows].
  destruct (split tab row) as [|f1 [|f2 [|f3 [|f4 [|f5 [|f6 fs]]]]]];
    try discriminate.
  destruct (split slash f5) as [|m [|t [|x xs]]]; try discriminate.
  now apply IH.
Qed.

Lemma map_lines_of_rows {A : Type} (line : A -> string)
      (of_row : string -> A -> Prop) (rows : list string) (xs : list A) :
  (forall row x, of_row row x -> line x = row) ->
  Forall2 of_row rows xs -> map line xs = rows.
Proof.
  intros Hline. induction 1 as [|row x rows xs Hx _ IH]; [reflexivity|].
  cbn [map]. now rewrite (Hline _ _ Hx), IH.
Qed.

(** X4: [parse_mash_info] judges the data rows of the trimmed text, all
    of them or none: when every row splits at tabs into four pieces it
    returns one sketch per row, in order, whose fields are the four pieces
    unchanged; otherwise it raises its format error. *)
Theorem parse_mash_info_outcome (text : string) :
  let rows := tl (split newline (rstrip text)) in
  (forallb info_row_ok rows = true
   /\ exists sketches,
        parse_mash_info text = Ok sketches
        /\ Forall2 sketch_of_row rows sketches)
  \/ (forallb info_row_ok rows = false
      /\ parse_mash_info text = Raise mash_info_format_error).
Proof.
  intros rows. unfold parse_mash_info.
  destruct (truthy text) eqn:Et; cbn [negb].
  2:{ destruct text; [|discriminate]. left. split; [reflexivity|].
      exists []. split; [reflexivity | constructor]. }
  change (tl (split newline (rstrip text))) with rows. clearbody rows.
  destruct (forallb info_row_ok rows) eqn:Eok.
  - left. split; [reflexivity|].
    destruct (parse_mash_info_rows_ok rows [] Eok) as (parsed & E & _).
    rewrite E. exists parsed. split; [reflexivity|].
    apply parse_mash_info_rows_inv in E. destruct E as (new & E & Hnew).
    cbn [app] in E. now subst.
  - right. split; [reflexivity|].
    now rewrite parse_mash_info_rows_rejects.
Qed.

(** X5: on a non-empty text [parse_mash_dist] judges the rows of the
    trimmed text, all of them or none: when every row splits at tabs into
    five pieces, the fifth splitting at the slash into two, it returns
    one hit per row, in order, whose fields are those pieces unchanged;
    otherwise it raises its format error. *)
Theorem parse_mash_dist_outcome (text : string) :
  text <> "" ->
  let rows := split newline (rstrip text) in
  (forallb dist_row_ok rows = true
   /\ exists hits,
        parse_mash_dist text = Ok hits /\ Forall2 hit_of_row rows hits)
  \/ (forallb dist_row_ok rows = false
      /\ parse_mash_dist text = Raise mash_dist_format_error).
Proof.
  intros Hne rows. unfold parse_mash_dist.
  rewrite truthy_not_empty by exact Hne. cbn [negb].
  change (split newline (rstrip text)) with rows. clearbody rows.
  destruct (forallb dist_row_ok rows) eqn:Eok.
  - left. split; [reflexivity|].
    destruct (parse_mash_dist_rows_ok rows [] Eok) as (parsed & E).
    rewrite E. exists parsed. split; [reflexivity|].
    apply parse_mash_dist_rows_inv in E. destruct E as (new & E & Hnew).
    cbn [app] in E. now subst.
  - right. split; [reflexivity|].
    now rewrite parse_mash_dist_rows_rejects.
Qed.

Lemma parse_mash_dist_outcome_witness :
  terminated (map hit_line Sample.hits_with_tie) <> ""
  /\ exists hits,
       parse_mash_dist (terminated (map hit_line Sample.hits_with_tie))
       = Ok hits
       /\ Forall2 hit_of_row
            (split newline
               (rstrip (terminated (map hit_line Sample.hits_with_tie))))
            hits.
Proof.
  assert (H : terminated (map hit_line Sample.hits_with_tie) <> "")
    by discriminate.
  split; [exact H|].
  destruct (parse_mash_dist_outcome _ H) as [[_ Hok]|[Hbad _]].
  - exact Hok.
  - vm_compute in Hbad. discriminate Hbad.
Defined.

(** X6: nothing but trailing whitespace is lost by [parse_mash_dist]:
    writing the returned hits back as lines, joined by newlines, gives the
    trimmed text. *)
Theorem parse_mash_dist_lines (text : string) (hits : list MashHit) :
  text <> "" ->
  parse_mash_dist text = Ok hits ->
  join NL (map hit_line hits) = rstrip text.
Proof.
  intros Hne. unfold parse_mash_dist.
  rewrite truthy_not_empty by exact Hne. cbn [negb].
  destruct (parse_mash_dist_rows _ []) as [parsed|] eqn:E; [|discriminate].
  intros [= ->]. apply parse_mash_dist_rows_inv in E.
  destruct E as (new & -> & Hnew). cbn [app].
  rewrite (map_lines_of_rows hit_line hit_of_row _ _ hit_of_row_line Hnew).
  apply (join_split newline).
Qed.

Lemma parse_mash_dist_lines_witness :
  terminated (map hit_line Sample.hits_with_tie) <> ""
  /\ parse_mash_dist (terminated (map hit_line Sample.hits_with_tie))
     = Ok Sample.hits_with_tie
  /\ join NL (map hit_line Sample.hits_with_tie)
     = rstrip (terminated (map hit_line Sample.hits_with_tie)).
Proof.
  assert (H1 : terminated (map hit_line Sample.hits_with_tie) <> "")
    by discriminate.
  assert (H2 : parse_mash_dist (terminated (map hit_line Sample.hits_with_tie))
               = Ok Sample.hits_with_tie) by (vm_compute; reflexivity).
  split; [exact H1 | split; [exact H2|]].
  exact (parse_mash_dist_lines _ _ H1 H2).
Defined.

(** X7: nothing but trailing whitespace is lost by [parse_mash_info]
    either: the first line of the trimmed text, of which no sketch is made,
    followed by the lines of the returned sketches, is the trimmed text. *)
Theorem parse_mash_info_lines (text : string) (sketches : list Sketch) :
  parse_mash_info text = Ok sketches ->
  exists header,
    contains newline header = false
    /\ join NL (header :: map sketch_line sketches) = rstrip text.
Proof.
  unfold parse_mash_info. destruct text as [|c text'] eqn:Et.
  { intros [= <-]. now exists "". }
  rewrite <- Et. rewrite truthy_not_empty by (rewrite Et; discriminate).
  cbn [negb].
  pose proof (join_split newline (rstrip text)) as Hjoin.
  pose proof (split_pieces_no_sep newline (rstrip text)) as Hpieces.
  destruct (split newline (rstrip text)) as [|header rows] eqn:Es.
  { now apply split_not_nil in Es. }
  cbn [tl].
  destruct (parse_mash_info_rows rows []) as [parsed|] eqn:E; [|discriminate].
  intros [= ->]. apply parse_mash_info_rows_inv in E.
  destruct E as (new & -> & Hnew). cbn [app].
  exists header. split; [now apply Forall_cons_iff in Hpieces|].
  now rewrite (map_lines_of_rows sketch_line sketch_of_row _ _
                 sketch_of_row_line Hnew).
Qed.

Lemma parse_mash_info_lines_witness :
  parse_mash_info
    (terminated [Sample.info_header; sketch_line Sample.sketch_with_comment])
  = Ok [Sample.sketch_with_comment]
  /\ exists header,
       contains newline header = false
       /\ join NL (header :: map sketch_line [Sample.sketch_with_comment])
          = rstrip (terminated [Sample.info_header;
                                sketch_line Sample.sketch_with_comment]).
Proof.
  assert (H : parse_mash_info
                (terminated [Sample.info_header;
                             sketch_line Sample.sketch_with_comment])
              = Ok [Sample.sketch_with_comment]) by (vm_compute; reflexivity).
  split; [exact H|].
  exact (parse_mash_info_lines _ _ H).
Defined.

Lemma parse_mash_info_well_formed_witness :
  contains newline Sample.info_header = false
  /\ forallb wf_sketch ([Sample.sketch_without_comment]
                          ++ [Sample.sketch_with_comment]) = true
  /\ comment Sample.sketch_with_comment <> ""
  /\ rstrip (comment Sample.sketch_with_comment)
     = comment Sample.sketch_with_comment
  /\ parse_mash_info
       (terminated
          (Sample.info_header
             :: map sketch_line ([Sample.sketch_without_comment]
                                   ++ [Sample.sketch_with_comment])))
     = Ok ([Sample.sketch_without_comment] ++ [Sample.sketch_with_comment]).
Proof.
  assert (H1 : contains newline Sample.info_header = false) by reflexivity.
  assert (H2 : forallb wf_sketch ([Sample.sketch_without_comment]
                                    ++ [Sample.sketch_with_comment]) = true)
    by reflexivity.
  assert (H3 : comment Sample.sketch_with_comment <> "") by discriminate.
  assert (H4 : rstrip (comment Sample.sketch_with_comment)
               = comment Sample.sketch_with_comment) by reflexivity.
  split; [exact H1 | split; [exact H2 | split; [exact H3 | split;
    [exact H4|]]]].
  exact (parse_mash_info_well_formed Sample.info_header _
           [Sample.sketch_without_comment] Sample.sketch_with_comment
           H1 H2 H3 H4 (or_introl eq_refl)).
Defined.

Lemma info_data_rows (body : string) :
  exists rows,
    forall header,
      contains newline header = false ->
      tl (split newline (rstrip (header ++ NL ++ body))) = rows.
Proof.
  destruct (rstrip body) as [|c r] eqn:Eb.
  - exists []. intros header Hh.
    assert (E : rstrip (NL ++ body) = "") by (cbn; now rewrite Eb).
    rewrite (rstrip_app_drop header _ E).
    now rewrite split_no_sep by now apply contains_rstrip.
  - exists (split newline (rstrip body)). intros header Hh.
    assert (E : rstrip (NL ++ body) = String newline (rstrip body))
      by (cbn; now rewrite Eb).
    rewrite rstrip_app_keep by (rewrite E; discriminate).
    rewrite E, split_app by exact Hh. reflexivity.
Qed.

(** X9: the first line of a sketch listing is dropped unread: two texts
    that differ only in their first lines give the same result, whatever
    the rest holds. *)
Theorem parse_mash_info_ignores_header (header1 header2 body : string) :
  contains newline header1 = false ->
  contains newline header2 = false ->
  parse_mash_info (header1 ++ NL ++ body)
  = parse_mash_info (header2 ++ NL ++ body).
Proof.
  intros H1 H2. destruct (info_data_rows body) as (rows & Hrows).
  unfold parse_mash_info. rewrite (Hrows _ H1), (Hrows _ H2).
  rewrite !truthy_not_empty; [reflexivity | |];
    apply append_not_empty; discriminate.
Qed.

Lemma parse_mash_info_ignores_header_witness :
  contains newline Sample.info_header = false
  /\ contains newline "" = false
  /\ parse_mash_info
       (Sample.info_header ++ NL
          ++ sketch_line Sample.sketch_with_comment)
     = parse_mash_info ("" ++ NL ++ sketch_line Sample.sketch_with_comment).
Proof.
  assert (H1 : contains newline Sample.info_header = false) by reflexivity.
  assert (H2 : contains newline "" = false) by reflexivity.
  split; [exact H1 | split; [exact H2|]].
  exact (parse_mash_info_ignores_header _ _ _ H1 H2).
Defined.

Lemma get_best_hits_best_n_nonnegative_witness :
  (0 <= 2)%Z
  /\ get_best_hits Sample.hits_unsorted "best_n" 2
     = PyList (firstn (Z.to_nat 2)
                      (sorted String.ltb mash_dist Sample.hits_unsorted)).
Proof.
  assert (H : (0 <= 2)%Z) by lia.
  split; [exact H|].
  exact (proj1 (get_best_hits_best_n_nonnegative Sample.hits_unsorted 2 H)).
Defined.

Lemma get_best_hits_best_n_negative_witness :
  (-2 < 0)%Z
  /\ get_best_hits Sample.hits_unsorted "best_n" (-2)
     = PyList (firstn (List.length Sample.hits_unsorted - Z.to_nat (- -2))
                      (sorted String.ltb mash_dist Sample.hits_unsorted)).
Proof.
  assert (H : (-2 < 0)%Z) by lia.
  split; [exact H|].
  exact (get_best_hits_best_n_negative Sample.hits_unsorted (-2) H).
Defined.

(** ** write_hits *)

Lemma for_each_print_run (line_of : MashHit -> string)
      (best_hits : list MashHit) (tr : list event) :
  for_each (fun hit => print (line_of hit)) best_hits tr
  = (Ok tt, tr ++ map (fun hit => Print (line_of hit)) best_hits).
Proof.
  revert tr. induction best_hits as [|hit best_hits IH]; intros tr.
  - cbn. now rewrite app_nil_r.
  - cbn [for_each map]. unfold bind, print, emit at 1.
    rewrite IH, <- app_assoc. reflexivity.
Qed.

Lemma write_hits_run (best_hits : pyvalue) (models_path : string)
      (tr : list event) :
  write_hits best_hits models_path tr
  = (Ok tt,
     tr ++ match best_hits with
           | PyNone | PyList [] => [LogInfo "No hits found."]
           | PyList hits =>
               LogInfo ("Found " ++ of_nat (List.length hits) ++ " hit(s).")
                 :: Print output_header
                 :: map (fun hit => Print (output_line hit)) hits
           end).
Proof.
  destruct best_hits as [[|hit best_hits]|]; try reflexivity.
  unfold write_hits, bind, logging_info, print, emit at 1 2.
  rewrite (for_each_print_run output_line), <- !app_assoc. reflexivity.
Qed.

(** X12: [write_hits] never raises, whatever it is given.  For [None]
    and for the empty list it logs that no hits were found and prints
    nothing; for a list of k hits it logs their number and prints the header
    line and then exactly k lines, one per hit in the order of the list,
    each holding the reference id, the distance, the hash ratio
    matching/total and the p value separated by tabs.  The models path
    plays no part. *)
Theorem write_hits_output (best_hits : pyvalue) (models_path : string)
        (tr : list event) :
  write_hits best_hits models_path tr
  = (Ok tt,
     tr ++ match best_hits with
           | PyNone | PyList [] => [LogInfo "No hits found."]
           | PyList hits =>
               LogInfo ("Found " ++ of_nat (List.length hits) ++ " hit(s).")
                 :: Print output_header
                 :: map (fun hit => Print (output_line hit)) hits
           end).
Proof. apply write_hits_run. Qed.

Lemma hit_of_row_no_tab (row : string) (hit : MashHit) :
  hit_of_row row hit ->
  contains tab (ref_id hit) = false
  /\ contains tab (mash_dist hit) = false
  /\ contains tab (p_value hit) = false
  /\ contains tab (matching_hashes hit) = false
  /\ contains tab (total_hashes hit) = false.
Proof.
  intros (hash_ratio & Hfields & Hratio).
  pose proof (split_pieces_no_sep tab row) as Hp. rewrite Hfields in Hp.
  repeat (apply Forall_cons_iff in Hp;
          let H := fresh "Hf" in destruct Hp as [H Hp]).
  pose proof (split_pieces_keep_out tab slash hash_ratio Hf3) as Hr.
  rewrite Hratio in Hr.
  repeat (apply Forall_cons_iff in Hr;
          let H := fresh "Hh" in destruct Hr as [H Hr]).
  now repeat split.
Qed.

Lemma parsed_hits_of_rows (text : string) (hits : list MashHit) :
  parse_mash_dist text = Ok hits ->
  Forall (fun hit => exists row, hit_of_row row hit) hits.
Proof.
  unfold parse_mash_dist. destruct (negb (truthy text)).
  { intros [= <-]. constructor. }
  destruct (parse_mash_dist_rows _ []) as [parsed|] eqn:E; [|discriminate].
  intros [= ->]. apply parse_mash_dist_rows_inv in E.
  destruct E as (new & -> & Hnew). cbn [app].
  induction Hnew as [|row hit rows new' Hhit _ IH]; constructor;
    [now exists row | exact IH].
Qed.

(** X13: the table that the program prints is tabular: for the hits that
    [parse_mash_dist] returned and [get_best_hits] selected, in any mode,
    every line that [write_hits] prints splits at tabs into exactly the four
    columns of the header: reference id, distance, hash ratio, p value. *)
Theorem printed_lines_have_four_columns
        (text mode : string) (n : Z) (hits best : list MashHit) :
  parse_mash_dist text = Ok hits ->
  get_best_hits hits mode n = PyList best ->
  List.length (split tab output_header) = 4%nat
  /\ Forall (fun hit =>
               split tab (output_line hit)
               = [ref_id hit; mash_dist hit;
                  join "/" [matching_hashes hit; total_hashes hit];
                  p_value hit])
            best.
Proof.
  intros Hparse Hbest. split; [reflexivity|].
  apply parsed_hits_of_rows in Hparse.
  destruct (get_best_hits_prefix _ _ _ _ Hbest) as (rest & E).
  pose proof (sorted_perm String.ltb mash_dist hits) as Hperm.
  rewrite E in Hperm.
  apply Forall_forall. intros hit Hin.
  assert (Hhit : In hit hits).
  { apply (Permutation_in _ Hperm). apply in_or_app. now left. }
  rewrite Forall_forall in Hparse.
  destruct (Hparse hit Hhit) as (row & Hrow).
  destruct (hit_of_row_no_tab row hit Hrow) as (H1 & H2 & H3 & H4 & H5).
  apply (split_join tab); [discriminate|].
  repeat constructor; try assumption.
  cbn [join]. rewrite contains_app, H4. cbn. exact H5.
Qed.

Lemma printed_lines_have_four_columns_witness :
  parse_mash_dist (terminated (map hit_line Sample.hits_with_tie))
  = Ok Sample.hits_with_tie
  /\ get_best_hits Sample.hits_with_tie "standard" 1
     = PyList [Sample.hit "ref_a" "0.1"; Sample.hit "ref_b" "0.1"]
  /\ Forall (fun hit =>
               split tab (output_line hit)
               = [ref_id hit; mash_dist hit;
                  join "/" [matching_hashes hit; total_hashes hit];
                  p_value hit])
            [Sample.hit "ref_a" "0.1"; Sample.hit "ref_b" "0.1"].
Proof.
  assert (H1 : parse_mash_dist (terminated (map hit_line Sample.hits_with_tie))
               = Ok Sample.hits_with_tie) by (vm_compute; reflexivity).
  assert (H2 : get_best_hits Sample.hits_with_tie "standard" 1
               = PyList [Sample.hit "ref_a" "0.1"; Sample.hit "ref_b" "0.1"])
    by reflexivity.
  split; [exact H1 | split; [exact H2|]].
  exact (proj2 (printed_lines_have_four_columns _ _ _ _ _ H1 H2)).
Defined.

(** ** The pipeline, step by step *)

Lemma filter_is_run_prints (line_of : MashHit -> string)
      (hits : list MashHit) :
  filter is_run (map (fun hit => Print (line_of hit)) hits) = [].
Proof. induction hits as [|hit hits IH]; [reflexivity | exact IH]. Qed.

Section PipelineSteps.
Variable listdir_result : list event -> string -> outcome (list string).
Variable run_result : list event -> list string -> outcome CompletedProcess.
Variable float : Type.
Variable str_of_float : float -> string.

Lemma run_mash_info_steps (sketches_path : string) (tr : list event) :
  run_mash_info run_result sketches_path tr
  = (match run_result tr (info_command sketches_path) with
     | Raise e => Raise e
     | Ok result =>
         if (returncode result =? 0)%Z
         then parse_mash_info (stdout result)
         else Raise (RuntimeError (exit_status_message "info" result))
     end,
     tr ++ [Run (info_command sketches_path)]).
Proof.
  unfold run_mash_info, bind, subprocess_run, raise, lift.
  fold (info_command sketches_path).
  destruct (run_result tr _) as [result|e]; [|reflexivity].
  now destruct (returncode result =? 0)%Z.
Qed.

Lemma run_mash_dist_steps (query reference max_dist : string)
      (tr : list event) :
  run_mash_dist run_result query reference (Some ["-d"; max_dist]) tr
  = (match run_result tr (dist_command max_dist query reference) with
     | Raise e => Raise e
     | Ok result =>
         if (returncode result =? 0)%Z
         then parse_mash_dist (stdout result)
         else Raise (RuntimeError (exit_status_message "dist" result))
     end,
     tr ++ [Run (dist_command max_dist query reference)]).
Proof.
  unfold run_mash_dist, bind, subprocess_run, raise, lift. cbn [app].
  fold (dist_command max_dist query reference).
  destruct (run_result tr _) as [result|e]; [|reflexivity].
  now destruct (returncode result =? 0)%Z.
Qed.

Lemma select_models_steps
      (query mode : string) (n : Z) (max_dist : float)
      (models_path sketches_path : string) (check : bool)
      (loglevel : option Z) (tr : list event) :
  select_models listdir_result run_result float str_of_float
                query mode n max_dist models_path sketches_path check
                loglevel tr
  = match (if check
           then check_models listdir_result run_result
                             models_path sketches_path
           else ret tt) tr with
    | (Raise e, tr0) => (Raise e, tr0)
    | (Ok _, tr0) =>
        match run_result tr0
                (dist_command (str_of_float max_dist) query sketches_path) with
        | Raise e =>
            (Raise e,
             tr0 ++ [Run (dist_command (str_of_float max_dist) query
                                       sketches_path)])
        | Ok result =>
            if (returncode result =? 0)%Z then
              match parse_mash_dist (stdout result) with
              | Ok hits =>
                  write_hits (get_best_hits hits mode n) models_path
                    (tr0 ++ [Run (dist_command (str_of_float max_dist) query
                                               sketches_path)])
              | Raise e =>
                  (Raise e,
                   tr0 ++ [Run (dist_command (str_of_float max_dist) query
                                             sketches_path)])
              end
            else
              (Raise (RuntimeError (exit_status_message "dist" result)),
               tr0 ++ [Run (dist_command (str_of_float max_dist) query
                                         sketches_path)])
        end
    end.
Proof.
  unfold select_models. unfold bind at 1.
  destruct ((if check
             then check_models listdir_result run_result
                               models_path sketches_path
             else ret tt) tr) as [[[]|e] tr0]; [|reflexivity].
  unfold bind. rewrite run_mash_dist_steps.
  destruct (run_result tr0 _) as [result|e]; [|reflexivity].
  destruct (returncode result =? 0)%Z; [|reflexivity].
  now destruct (parse_mash_dist (stdout result)).
Qed.

Lemma check_models_steps (models_path sketches_path : string)
      (tr : list event) :
  check_models listdir_result run_result models_path sketches_path tr
  = match listdir_result tr models_path with
    | Raise e => (Raise e, tr ++ [Listdir models_path])
    | Ok models =>
        match run_mash_info run_result sketches_path
                (tr ++ [Listdir models_path]) with
        | (Raise e, tr1) => (Raise e, tr1)
        | (Ok sketches, tr1) =>
            (match missing_ids_of models sketches with
             | [] => Ok tt
             | missing_ids =>
                 Raise (FileNotFoundError
                          (missing_models_message models_path missing_ids))
             end,
             tr1 ++ [LogInfo ("Found " ++ of_nat (List.length sketches)
                                ++ " reference sketches.")])
        end
    end.
Proof.
  destruct (listdir_result tr models_path) as [models|e] eqn:Hdir.
  2:{ unfold check_models, bind, os_listdir. now rewrite Hdir. }
  destruct (run_mash_info run_result sketches_path _)
    as [[sketches|e] tr1] eqn:Hinfo.
  - now apply check_models_after_listing.
  - unfold check_models, bind, os_listdir. now rewrite Hdir, Hinfo.
Qed.

(** What [check_models] runs: nothing when the directory cannot be
    listed, and [mash info] once otherwise. *)
Lemma check_models_runs (models_path sketches_path : string)
      (tr : list event) :
  exists evs,
    snd (check_models listdir_result run_result models_path sketches_path tr)
    = tr ++ evs
    /\ ((filter is_run evs = []
         /\ exists e,
              fst (check_models listdir_result run_result
                                models_path sketches_path tr) = Raise e)
        \/ filter is_run evs = [Run (info_command sketches_path)]).
Proof.
  rewrite check_models_steps.
  destruct (listdir_result tr models_path) as [models|e].
  2:{ exists [Listdir models_path]. split; [reflexivity|].
      left. split; [reflexivity | now exists e]. }
  rewrite run_mash_info_steps.
  destruct (run_result _ _) as [result|e];
    [destruct (returncode result =? 0)%Z;
     [destruct (parse_mash_info (stdout result)) as [sketches|e]|]|];
    cbn [fst snd]; rewrite <- ?app_assoc;
    (eexists; split; [reflexivity | now right]).
Qed.

(** X14: the processes of a run of [select_models], whatever its
    outcome: [mash info] first when the check is asked for, then
    [mash dist] with ["-d"], [str(max_dist)], the sketches and the query;
    each at most once, the second only after the first, and no other
    process. *)
Theorem select_models_processes
        (query mode : string) (n : Z) (max_dist : float)
        (models_path sketches_path : string) (check : bool)
        (loglevel : option Z) (tr : list event) :
  exists evs k,
    snd (select_models listdir_result run_result float str_of_float
                       query mode n max_dist models_path sketches_path check
                       loglevel tr)
    = tr ++ evs
    /\ filter is_run evs
       = firstn k
           ((if check then [Run (info_command sketches_path)] else [])
              ++ [Run (dist_command (str_of_float max_dist) query
                                    sketches_path)]).
Proof.
  rewrite select_models_steps.
  assert (Hcheck : exists evs,
             snd ((if check
                   then check_models listdir_result run_result
                                     models_path sketches_path
                   else ret tt) tr) = tr ++ evs
             /\ ((filter is_run evs = []
                  /\ (check = true ->
                      exists e,
                        fst ((if check
                              then check_models listdir_result run_result
                                                models_path sketches_path
                              else ret tt) tr) = Raise e))
                 \/ (check = true
                     /\ filter is_run evs
                        = [Run (info_command sketches_path)]))).
  { destruct check.
    - destruct (check_models_runs models_path sketches_path tr)
        as (evs & E & [[Hf He]|Hf]); exists evs; (split; [exact E|]);
        [left | right]; now split.
    - exists []. cbn. rewrite app_nil_r. split; [reflexivity|].
      left. split; [reflexivity | discriminate]. }
  destruct Hcheck as (evs & Hevs & Hruns).
  destruct ((if check
             then check_models listdir_result run_result
                               models_path sketches_path
             else ret tt) tr) as [[[]|e] tr0]; cbn [fst snd] in *; subst tr0.
  2:{ exists evs. destruct Hruns as [[Hf _]|[-> Hf]].
      - exists 0. now rewrite Hf.
      - exists 1. now rewrite Hf. }
  set (cmd := dist_command (str_of_float max_dist) query sketches_path).
  assert (Hk : exists k,
             filter is_run (evs ++ [Run cmd])
             = firstn k ((if check
                          then [Run (info_command sketches_path)] else [])
                           ++ [Run cmd])).
  { rewrite filter_app. destruct Hruns as [[Hf He]|[-> Hf]]; rewrite Hf.
    - destruct check; [destruct (He eq_refl); discriminate|].
      now exists 1.
    - now exists 2. }
  destruct Hk as (k & Hk).
  assert (Hstop : forall r : outcome unit,
             exists evs' k',
               snd (r, (tr ++ evs) ++ [Run cmd]) = tr ++ evs'
               /\ filter is_run evs'
                  = firstn k' ((if check
                                then [Run (info_command sketches_path)]
                                else []) ++ [Run cmd])).
  { intros r. exists (evs ++ [Run cmd]), k. cbn [snd].
    now rewrite app_assoc. }
  destruct (run_result (tr ++ evs) cmd) as [result|e]; [|apply Hstop].
  destruct (returncode result =? 0)%Z; [|apply Hstop].
  destruct (parse_mash_dist (stdout result)) as [hits|e]; [|apply Hstop].
  rewrite write_hits_run. cbn [snd].
  rewrite filter_app in Hk. cbn [filter is_run] in Hk.
  destruct (get_best_hits hits mode n) as [[|hit best]|];
    (eexists (evs ++ Run cmd :: _), k; rewrite <- !app_assoc; cbn [app];
     split; [reflexivity|];
     rewrite filter_app; cbn [filter is_run];
     rewrite ?filter_is_run_prints; exact Hk).
Qed.

End PipelineSteps.

(** ** The pipeline, outcome by outcome *)

Section PipelineOutcomes.
Variable listdir_result : list event -> string -> outcome (list string).
Variable run_result : list event -> list string -> outcome CompletedProcess.
Variable float : Type.
Variable str_of_float : float -> string.

(** X15: when [mash dist] ends with a non-zero exit status,
    [select_models] raises a [RuntimeError] that quotes the status and the
    captured stderr; what the process printed is not parsed, and nothing is
    logged or printed after the run. *)
Theorem select_models_dist_failure
        (query mode : string) (n : Z) (max_dist : float)
        (models_path sketches_path : string) (loglevel : option Z)
        (tr : list event) (result : CompletedProcess) :
  let command := dist_command (str_of_float max_dist) query sketches_path in
  run_result tr command = Ok result ->
  returncode result <> 0%Z ->
  select_models listdir_result run_result float str_of_float
                query mode n max_dist models_path sketches_path false
                loglevel tr
  = (Raise (RuntimeError
              (join NL [ ("Mash dist returned non-zero exit status "
                            ++ of_Z (returncode result) ++ ".")%string;
                         ("Captured stderr: " ++ stderr result)%string ])),
     tr ++ [Run command]).
Proof.
  intros command Hrun Hcode. rewrite select_models_steps. cbn [ret].
  fold command. rewrite Hrun.
  apply Z.eqb_neq in Hcode. now rewrite Hcode.
Qed.

(** X16: when [mash dist] succeeds and [get_best_hits] selects at least
    one hit, [select_models] logs the number of selected hits and prints the
    header and one line per selected hit, in the order [get_best_hits]
    gave them. *)
Theorem select_models_prints_best_hits
        (query mode : string) (n : Z) (max_dist : float)
        (models_path sketches_path : string) (loglevel : option Z)
        (tr : list event) (result : CompletedProcess)
        (hits : list MashHit) (hit : MashHit) (others : list MashHit) :
  let command := dist_command (str_of_float max_dist) query sketches_path in
  run_result tr command = Ok result ->
  returncode result = 0%Z ->
  parse_mash_dist (stdout result) = Ok hits ->
  get_best_hits hits mode n = PyList (hit :: others) ->
  select_models listdir_result run_result float str_of_float
                query mode n max_dist models_path sketches_path false
                loglevel tr
  = (Ok tt,
     tr ++ Run command
        :: LogInfo ("Found " ++ of_nat (List.length (hit :: others))
                      ++ " hit(s).")%string
        :: Print output_header
        :: map (fun best => Print (output_line best)) (hit :: others)).
Proof.
  intros command Hrun Hcode Hparse Hbest. rewrite select_models_steps.
  cbn [ret]. fold command. rewrite Hrun, Hcode, Hparse.
  cbn [Z.eqb]. rewrite write_hits_run, Hbest, <- app_assoc. reflexivity.
Qed.

(** X17: with a mode that is neither "standard" nor "best_n", a
    successful [mash dist] run, whatever hits it found, ends in the log
    message that no hits were found: nothing is printed and nothing is
    raised. *)
Theorem select_models_unrecognized_mode
        (query mode : string) (n : Z) (max_dist : float)
        (models_path sketches_path : string) (loglevel : option Z)
        (tr : list event) (result : CompletedProcess)
        (hits : list MashHit) :
  let command := dist_command (str_of_float max_dist) query sketches_path in
  mode <> "standard" -> mode <> "best_n" ->
  run_result tr command = Ok result ->
  returncode result = 0%Z ->
  parse_mash_dist (stdout result) = Ok hits ->
  select_models listdir_result run_result float str_of_float
                query mode n max_dist models_path sketches_path false
                loglevel tr
  = (Ok tt, tr ++ [Run command; LogInfo "No hits found."]).
Proof.
  intros command Hs Hb Hrun Hcode Hparse. rewrite select_models_steps.
  cbn [ret]. fold command. rewrite Hrun, Hcode, Hparse.
  cbn [Z.eqb]. rewrite write_hits_run, <- app_assoc.
  destruct hits as [|hit hits]; [reflexivity|].
  rewrite get_best_hits_nonempty by discriminate.
  apply String.eqb_neq in Hs, Hb. now rewrite Hs, Hb.
Qed.

(** X18: when [mash dist] succeeds and prints nothing, [select_models]
    logs that no hits were found and prints nothing, in every mode and for
    every [n]. *)
Theorem select_models_no_output
        (query mode : string) (n : Z) (max_dist : float)
        (models_path sketches_path : string) (loglevel : option Z)
        (tr : list event) (result : CompletedProcess) :
  let command := dist_command (str_of_float max_dist) query sketches_path in
  run_result tr command = Ok result ->
  returncode result = 0%Z ->
  stdout result = "" ->
  select_models listdir_result run_result float str_of_float
                query mode n max_dist models_path sketches_path false
                loglevel tr
  = (Ok tt, tr ++ [Run command; LogInfo "No hits found."]).
Proof.
  intros command Hrun Hcode Hout. rewrite select_models_steps.
  cbn [ret]. fold command. rewrite Hrun, Hcode, Hout.
  change (parse_mash_dist "") with (Ok (@nil MashHit)).
  cbn [Z.eqb get_best_hits]. rewrite write_hits_run, <- app_assoc.
  reflexivity.
Qed.

(** X19: with the check asked for, a models directory that cannot be
    listed ends [select_models] with the exception of the listing, before
    any process is run. *)
Theorem select_models_listing_failure
        (query mode : string) (n : Z) (max_dist : float)
        (models_path sketches_path : string) (loglevel : option Z)
        (tr : list event) (e : exn) :
  listdir_result tr models_path = Raise e ->
  select_models listdir_result run_result float str_of_float
                query mode n max_dist models_path sketches_path true
                loglevel tr
  = (Raise e, tr ++ [Listdir models_path]).
Proof.
  intros Hdir. rewrite select_models_steps, check_models_steps.
  now rewrite Hdir.
Qed.

(** X20: with the check asked for, a [mash info] that ends with a
    non-zero exit status ends [select_models] with a [RuntimeError] that
    quotes the status and the captured stderr; no sketch is counted and
    [mash dist] is not run. *)
Theorem select_models_info_failure
        (query mode : string) (n : Z) (max_dist : float)
        (models_path sketches_path : string) (loglevel : option Z)
        (tr : list event) (models : list string)
        (result : CompletedProcess) :
  listdir_result tr models_path = Ok models ->
  run_result (tr ++ [Listdir models_path]) (info_command sketches_path)
  = Ok result ->
  returncode result <> 0%Z ->
  select_models listdir_result run_result float str_of_float
                query mode n max_dist models_path sketches_path true
                loglevel tr
  = (Raise (RuntimeError
              (join NL [ ("Mash info returned non-zero exit status "
                            ++ of_Z (returncode result) ++ ".")%string;
                         ("Captured stderr: " ++ stderr result)%string ])),
     tr ++ [Listdir models_path; Run (info_command sketches_path)]).
Proof.
  intros Hdir Hrun Hcode.
  rewrite select_models_steps, check_models_steps, Hdir.
  rewrite run_mash_info_steps, Hrun.
  apply Z.eqb_neq in Hcode. rewrite Hcode, <- app_assoc. reflexivity.
Qed.

End PipelineOutcomes.

Lemma select_models_dist_failure_witness :
  Sample.mash_fails [] (dist_command "0.3" "query.fna" "data/reference.msh")
  = Ok (mkCompletedProcess 1 "" "ERROR: cannot open the sketch file")
  /\ 1%Z <> 0%Z
  /\ fst (select_models Sample.listdir_without_ref1 Sample.mash_fails
                        string (fun max_dist => max_dist)
                        "query.fna" "standard" 1 "0.3"
                        "data/models" "data/reference.msh" false None [])
     = Raise (RuntimeError
                ("Mash dist returned non-zero exit status 1." ++ NL
                   ++ "Captured stderr: ERROR: cannot open the sketch file")%string).
Proof.
  assert (H1 : Sample.mash_fails []
                 (dist_command "0.3" "query.fna" "data/reference.msh")
               = Ok (mkCompletedProcess 1 ""
                       "ERROR: cannot open the sketch file")) by reflexivity.
  assert (H2 : 1%Z <> 0%Z) by discriminate.
  split; [exact H1 | split; [exact H2|]].
  exact (f_equal fst
           (select_models_dist_failure
              Sample.listdir_without_ref1 Sample.mash_fails
              string (fun max_dist => max_dist)
              "query.fna" "standard" 1 "0.3"
              "data/models" "data/reference.msh" None [] _ H1 H2)).
Defined.

Lemma select_models_prints_best_hits_witness :
  let result :=
    mkCompletedProcess 0 (terminated (map hit_line Sample.hits_with_tie)) "" in
  Sample.mash_finds_hits []
    (dist_command "0.3" "query.fna" "data/reference.msh") = Ok result
  /\ returncode result = 0%Z
  /\ parse_mash_dist (stdout result) = Ok Sample.hits_with_tie
  /\ get_best_hits Sample.hits_with_tie "standard" 1
     = PyList [Sample.hit "ref_a" "0.1"; Sample.hit "ref_b" "0.1"]
  /\ snd (select_models Sample.listdir_without_ref1 Sample.mash_finds_hits
                        string (fun max_dist => max_dist)
                        "query.fna" "standard" 1 "0.3"
                        "data/models" "data/reference.msh" false None [])
     = [Run (dist_command "0.3" "query.fna" "data/reference.msh");
        LogInfo "Found 2 hit(s).";
        Print output_header;
        Print (output_line (Sample.hit "ref_a" "0.1"));
        Print (output_line (Sample.hit "ref_b" "0.1"))].
Proof.
  intros result.
  assert (H1 : Sample.mash_finds_hits []
                 (dist_command "0.3" "query.fna" "data/reference.msh")
               = Ok result) by reflexivity.
  assert (H2 : returncode result = 0%Z) by reflexivity.
  assert (H3 : parse_mash_dist (stdout result) = Ok Sample.hits_with_tie)
    by (vm_compute; reflexivity).
  assert (H4 : get_best_hits Sample.hits_with_tie "standard" 1
               = PyList [Sample.hit "ref_a" "0.1"; Sample.hit "ref_b" "0.1"])
    by reflexivity.
  split; [exact H1 | split; [exact H2 | split; [exact H3 | split;
    [exact H4|]]]].
  exact (f_equal snd
           (select_models_prints_best_hits
              Sample.listdir_without_ref1 Sample.mash_finds_hits
              string (fun max_dist => max_dist)
              "query.fna" "standard" 1 "0.3"
              "data/models" "data/reference.msh" None [] result
              Sample.hits_with_tie _ _ H1 H2 H3 H4)).
Defined.

Lemma select_models_unrecognized_mode_witness :
  let result :=
    mkCompletedProcess 0 (terminated (map hit_line Sample.hits_with_tie)) "" in
  "top" <> "standard" /\ "top" <> "best_n"
  /\ Sample.mash_finds_hits []
       (dist_command "0.3" "query.fna" "data/reference.msh") = Ok result
  /\ returncode result = 0%Z
  /\ parse_mash_dist (stdout result) = Ok Sample.hits_with_tie
  /\ select_models Sample.listdir_without_ref1 Sample.mash_finds_hits
                   string (fun max_dist => max_dist)
                   "query.fna" "top" 1 "0.3"
                   "data/models" "data/reference.msh" false None []
     = (Ok tt,
        [Run (dist_command "0.3" "query.fna" "data/reference.msh");
         LogInfo "No hits found."]).
Proof.
  intros result.
  assert (Hs : "top" <> "standard") by discriminate.
  assert (Hb : "top" <> "best_n") by discriminate.
  assert (H1 : Sample.mash_finds_hits []
                 (dist_command "0.3" "query.fna" "data/reference.msh")
               = Ok result) by reflexivity.
  assert (H2 : returncode result = 0%Z) by reflexivity.
  assert (H3 : parse_mash_dist (stdout result) = Ok Sample.hits_with_tie)
    by (vm_compute; reflexivity).
  split; [exact Hs | split; [exact Hb | split; [exact H1 | split;
    [exact H2 | split; [exact H3|]]]]].
  exact (select_models_unrecognized_mode
           Sample.listdir_without_ref1 Sample.mash_finds_hits
           string (fun max_dist => max_dist)
           "query.fna" "top" 1 "0.3"
           "data/models" "data/reference.msh" None [] result
           Sample.hits_with_tie Hs Hb H1 H2 H3).
Defined.

Lemma select_models_no_output_witness :
  Sample.mash_finds_nothing []
    (dist_command "0.3" "query.fna" "data/reference.msh")
  = Ok (mkCompletedProcess 0 "" "")
  /\ select_models Sample.listdir_without_ref1 Sample.mash_finds_nothing
                   string (fun max_dist => max_dist)
                   "query.fna" "best_n" 3 "0.3"
                   "data/models" "data/reference.msh" false None []
     = (Ok tt,
        [Run (dist_command "0.3" "query.fna" "data/reference.msh");
         LogInfo "No hits found."]).
Proof.
  assert (H1 : Sample.mash_finds_nothing []
                 (dist_command "0.3" "query.fna" "data/reference.msh")
               = Ok (mkCompletedProcess 0 "" "")) by reflexivity.
  split; [exact H1|].
  exact (select_models_no_output
           Sample.listdir_without_ref1 Sample.mash_finds_nothing
           string (fun max_dist => max_dist)
           "query.fna" "best_n" 3 "0.3"
           "data/models" "data/reference.msh" None [] _
           H1 eq_refl eq_refl).
Defined.

Lemma select_models_listing_failure_witness :
  Sample.listdir_fails [] "data/models"
  = Raise (FileNotFoundError "No such file or directory: 'data/models'")
  /\ select_models Sample.listdir_fails Sample.mash_finds_hits
                   string (fun max_dist => max_dist)
                   "query.fna" "standard" 1 "0.3"
                   "data/models" "data/reference.msh" true None []
     = (Raise (FileNotFoundError "No such file or directory: 'data/models'"),
        [Listdir "data/models"]).
Proof.
  assert (H1 : Sample.listdir_fails [] "data/models"
               = Raise (FileNotFoundError
                          "No such file or directory: 'data/models'"))
    by reflexivity.
  split; [exact H1|].
  exact (select_models_listing_failure
           Sample.listdir_fails Sample.mash_finds_hits
           string (fun max_dist => max_dist)
           "query.fna" "standard" 1 "0.3"
           "data/models" "data/reference.msh" None [] _ H1).
Defined.

Lemma select_models_info_failure_witness :
  Sample.listdir_without_ref1 [] "data/models" = Ok ["ref0"]
  /\ Sample.mash_fails ([] ++ [Listdir "data/models"])
       (info_command "data/reference.msh")
     = Ok (mkCompletedProcess 1 "" "ERROR: cannot open the sketch file")
  /\ 1%Z <> 0%Z
  /\ snd (select_models Sample.listdir_without_ref1 Sample.mash_fails
                        string (fun max_dist => max_dist)
                        "query.fna" "standard" 1 "0.3"
                        "data/models" "data/reference.msh" true None [])
     = [Listdir "data/models"; Run (info_command "data/reference.msh")].
Proof.
  assert (H1 : Sample.listdir_without_ref1 [] "data/models" = Ok ["ref0"])
    by reflexivity.
  assert (H2 : Sample.mash_fails ([] ++ [Listdir "data/models"])
                 (info_command "data/reference.msh")
               = Ok (mkCompletedProcess 1 ""
                       "ERROR: cannot open the sketch file")) by reflexivity.
  assert (H3 : 1%Z <> 0%Z) by discriminate.
  split; [exact H1 | split; [exact H2 | split; [exact H3|]]].
  exact (f_equal snd
           (select_models_info_failure
              Sample.listdir_without_ref1 Sample.mash_fails
              string (fun max_dist => max_dist)
              "query.fna" "standard" 1 "0.3"
              "data/models" "data/reference.msh" None [] _ _ H1 H2 H3)).
Defined.

(** ** Trailing whitespace *)

(** X21: whitespace after the text counts for nothing: [parse_mash_info]
    returns the same with and without it, and so does [parse_mash_dist]
    when the text before the whitespace is not empty. *)
Theorem parsers_ignore_trailing_whitespace (text blank : string) :
  (forall c, In c (list_ascii_of_string blank) -> is_space c = true) ->
  parse_mash_info (text ++ blank) = parse_mash_info text
  /\ (text <> "" -> parse_mash_dist (text ++ blank) = parse_mash_dist text).
Proof.
  intros Hblank. pose proof (rstrip_spaces blank Hblank) as Hr.
  unfold parse_mash_info, parse_mash_dist.
  rewrite (rstrip_app_drop text blank Hr). split.
  - destruct text as [|c text'].
    + cbn [append rstrip split tl parse_mash_info_rows].
      now destruct (negb (truthy blank)).
    + reflexivity.
  - intros Hne. destruct text; [contradiction | reflexivity].
Qed.

Lemma parsers_ignore_trailing_whitespace_witness :
  (forall c, In c (list_ascii_of_string (" " ++ NL)) -> is_space c = true)
  /\ parse_mash_info
       ((Sample.info_header ++ NL
           ++ sketch_line Sample.sketch_with_comment) ++ " " ++ NL)
     = parse_mash_info
         (Sample.info_header ++ NL ++ sketch_line Sample.sketch_with_comment).
Proof.
  assert (H : forall c, In c (list_ascii_of_string (" " ++ NL)) ->
                        is_space c = true).
  { intros c [<-|[<-|[]]]; reflexivity. }
  split; [exact H|].
  exact (proj1 (parsers_ignore_trailing_whitespace
                  (Sample.info_header ++ NL
                     ++ sketch_line Sample.sketch_with_comment)
                  (" " ++ NL) H)).
Defined.
